(** * Skinny Fit Tea API: catalog handlers and checkout-session builder

    A shallow embedding of [main.py]: the product handlers
    ([create_product], [get_product], [update_product], [delete_product])
    and [create_checkout_session], over an explicit model of the document
    store, of the payment gateway and of Python's binary64 floats. *)

From Stdlib Require Import ZArith NArith List String Ascii Bool Lia.
From Stdlib Require Import Floats.SpecFloat.
Import ListNotations.
Local Open Scope string_scope.
Local Open Scope list_scope.
Local Open Scope Z_scope.

(** ** Python floats

    A Python [float] is an IEEE 754 binary64 number.  [spec_float] of
    the standard library is used at precision 53 and maximal exponent
    1024, with its correctly rounded (nearest, ties to even)
    operations. *)
Module PyFloat.

Definition prec : Z := 53.
Definition emax : Z := 1024.

Definition float := spec_float.

Definition mul : float -> float -> float := SFmul prec emax.
Definition div : float -> float -> float := SFdiv prec emax.

(** [float(n)] for an [int]: the nearest float.  CPython raises
    [OverflowError] beyond the finite range; [None] stands for it. *)
Definition of_int (n : Z) : option float :=
  match binary_normalize prec emax n 0 false with
  | S754_infinity _ => None
  | f => Some f
  end.

(** A float written out of range never occurs for the literals of the
    source ([0] and [100]). *)
Definition lit (n : Z) : float := binary_normalize prec emax n 0 false.

(** The decimal literal [n / 10^k] (for instance [19.99] is
    [decimal 1999 2]): both operands are exact and the division is
    correctly rounded, which is how a decimal literal is read. *)
Definition decimal (n : Z) (k : Z) : float := div (lit n) (lit (10 ^ k)).

Inductive conv_error := IsNaN | IsInfinite.

(** [int(x)]: truncation towards zero; [ValueError] on a NaN,
    [OverflowError] on an infinity. *)
Definition to_int (x : float) : conv_error + Z :=
  match x with
  | S754_zero _ => inr 0
  | S754_infinity _ => inl IsInfinite
  | S754_nan => inl IsNaN
  | S754_finite s m e =>
      let a := match e with
               | Z0 => Zpos m
               | Zpos p => Zpos m * 2 ^ Zpos p
               | Zneg p => Zpos m / 2 ^ Zpos p
               end in
      inr (if s then - a else a)
  end.

(** [round(x)] with one argument: the nearest integer, ties to even. *)
Definition round (x : float) : conv_error + Z :=
  match x with
  | S754_zero _ => inr 0
  | S754_infinity _ => inl IsInfinite
  | S754_nan => inl IsNaN
  | S754_finite s m e =>
      let a := match e with
               | Z0 => Zpos m
               | Zpos p => Zpos m * 2 ^ Zpos p
               | Zneg p =>
                   let d := 2 ^ Zpos p in
                   let q := Zpos m / d in
                   let r := Zpos m mod d in
                   match Z.compare (2 * r) d with
                   | Lt => q
                   | Gt => q + 1
                   | Eq => if Z.even q then q else q + 1
                   end
               end in
      inr (if s then - a else a)
  end.

(** [x >= 0], false on a NaN. *)
Definition ge0 (x : float) : bool := SFleb (S754_zero false) x.

End PyFloat.

(** ** Exceptions and HTTP status codes *)

Inductive exn :=
| HTTPException (status_code : Z) (detail : string)
| InvalidId (oid : string)            (* bson.errors.InvalidId *)
| TypeError (msg : string)
| AttributeError (msg : string)
| IndexError (msg : string)
| ValueError (msg : string)
| OverflowError (msg : string)
| ValidationError (field : string)    (* pydantic *)
| StoreUnavailable (msg : string).

(** What the HTTP caller sees: an [HTTPException] carries its own status,
    any other exception leaving a handler is answered by the framework
    with 500 Internal Server Error. *)
Definition http_status (e : exn) : Z :=
  match e with
  | HTTPException status_code _ => status_code
  | _ => 500
  end.

(** ** Identifiers

    A stored [bson.ObjectId] is a 12-byte key, here the numbers below
    [2^96]; [str] prints its 24 lower-case hexadecimal digits.
    [ObjectId(s)] raises [InvalidId] unless [s] has 24 characters, and
    hands those 24 characters to [bytes.fromhex], which reads two-digit
    bytes and skips ASCII whitespace between them: 24 hexadecimal digits
    give a 12-byte key, a string with whitespace gives a shorter byte
    string, which bson keeps as it is.  Such short keys are numbered
    from [2^96] on. *)
Definition ObjectId_t := N.

Definition hex_digit (c : ascii) : option N :=
  let n := N_of_ascii c in
  if ((48 <=? n) && (n <=? 57))%N then Some (n - 48)%N
  else if ((97 <=? n) && (n <=? 102))%N then Some (n - 87)%N
  else if ((65 <=? n) && (n <=? 70))%N then Some (n - 55)%N
  else None.

Fixpoint hex_value (s : string) (acc : N) : option N :=
  match s with
  | EmptyString => Some acc
  | String c rest =>
      match hex_digit c with
      | Some d => hex_value rest (16 * acc + d)%N
      | None => None
      end
  end.

Fixpoint all_hex (s : string) : bool :=
  match s with
  | EmptyString => true
  | String c rest =>
      match hex_digit c with Some _ => all_hex rest | None => false end
  end.

(** A well-formed storage key: right length, right character set. *)
Definition well_formed_id (s : string) : bool :=
  (String.length s =? 24)%nat && all_hex s.

(** ASCII whitespace: space, and tab to carriage return. *)
Definition is_space (c : ascii) : bool :=
  let n := N_of_ascii c in
  ((n =? 32) || ((9 <=? n) && (n <=? 13)))%N.

(** [bytes.fromhex]: [top] is the first digit of the byte being read,
    if any.  Whitespace is skipped before a byte, not inside it; any
    other character that is not a hexadecimal digit, or a digit left
    alone at the end, is a [ValueError] ([None]). *)
Fixpoint fromhex (s : string) (top : option N) : option (list N) :=
  match s with
  | EmptyString =>
      match top with None => Some [] | Some _ => None end
  | String c rest =>
      match top with
      | None =>
          if is_space c then fromhex rest None
          else match hex_digit c with
               | Some t => fromhex rest (Some t)
               | None => None
               end
      | Some t =>
          match hex_digit c with
          | Some b =>
              match fromhex rest None with
              | Some bs => Some ((16 * t + b)%N :: bs)
              | None => None
              end
          | None => None
          end
      end
  end.

(** Big-endian value of a byte string, continuing [acc]. *)
Fixpoint bytes_value (bs : list N) (acc : N) : N :=
  match bs with
  | [] => acc
  | b :: rest => bytes_value rest (256 * acc + b)%N
  end.

(** The key a byte string stands for: its value when it has 12 bytes,
    a number from [2^96] on (one per byte string) when it is shorter. *)
Definition key_of_bytes (bs : list N) : ObjectId_t :=
  if (List.length bs =? 12)%nat then bytes_value bs 0
  else (16 ^ 24 + bytes_value bs 1)%N.

Definition ObjectId (s : string) : exn + ObjectId_t :=
  if (String.length s =? 24)%nat then
    match fromhex s None with
    | Some bs => inr (key_of_bytes bs)
    | None => inl (InvalidId s)
    end
  else inl (InvalidId s).

Definition hex_char (d : N) : ascii :=
  if (d <? 10)%N then ascii_of_N (48 + d) else ascii_of_N (87 + d).

Fixpoint hex_digits (n : nat) (k : N) (acc : string) : string :=
  match n with
  | O => acc
  | S n' => hex_digits n' (k / 16)%N (String (hex_char (k mod 16)%N) acc)
  end.

Definition str_ObjectId (k : ObjectId_t) : string := hex_digits 24 k "".

(** ** Schemas *)

Definition float := PyFloat.float.

Record ProductIn := {
  title : string;
  description : option string;
  price : float;
  compare_at_price : option float;
  category : string;
  in_stock : bool;
  stock : Z;
  images : list string;
  tags : list string
}.

Record Product := {
  base : ProductIn;
  id : string
}.

Record CartItem := {
  product_id : string;
  quantity : Z
}.

Record CheckoutRequest := {
  items : list CartItem;
  customer_email : option string;
  success_url : string;
  cancel_url : string
}.

(** The constraints pydantic enforces on a request body before the
    handler runs: [price >= 0], [compare_at_price >= 0] when given. *)
Definition valid_ProductIn (p : ProductIn) : bool :=
  PyFloat.ge0 (price p) &&
  match compare_at_price p with
  | Some c => PyFloat.ge0 c
  | None => true
  end.

Definition valid_CartItem (i : CartItem) : bool := 1 <=? quantity i.

(** ** Documents

    The store is schema-free: a document of the product collection holds
    its key under ["_id"] and any of the nine attributes of [ProductIn],
    each of them possibly absent.  Present attributes have the type the
    schema declares. *)
Record attrs := {
  a_title : option string;
  a_description : option (option string);
  a_price : option float;
  a_compare_at_price : option (option float);
  a_category : option string;
  a_in_stock : option bool;
  a_stock : option Z;
  a_images : option (list string);
  a_tags : option (list string)
}.

Record document := {
  _id : ObjectId_t;
  fields : attrs
}.

(** [payload.model_dump()]: every attribute present. *)
Definition model_dump (p : ProductIn) : attrs :=
  {| a_title := Some (title p);
     a_description := Some (description p);
     a_price := Some (price p);
     a_compare_at_price := Some (compare_at_price p);
     a_category := Some (category p);
     a_in_stock := Some (in_stock p);
     a_stock := Some (stock p);
     a_images := Some (images p);
     a_tags := Some (tags p) |}.

(** [dict.get(key, default)]. *)
Definition get {A : Type} (o : option A) (default : A) : A :=
  match o with Some v => v | None => default end.

(** ** Utils *)

(** [serialize_doc]: a falsy argument is returned as it is, otherwise
    ["_id"] is popped and its [str] stored under ["id"]. *)
Definition serialize_doc (doc : option document) : option (string * attrs) :=
  match doc with
  | None => None
  | Some d => Some (str_ObjectId (_id d), fields d)
  end.

(** [Product] built from the keyword arguments [d]: the required
    attributes must be present, the
    others take the defaults of the schema, and the [ge=0] constraints
    are checked. *)
Definition Product_of (d : option (string * attrs)) : exn + Product :=
  match d with
  | None => inl (TypeError "argument after ** must be a mapping, not NoneType")
  | Some (i, a) =>
      match a_title a, a_price a with
      | None, _ => inl (ValidationError "title")
      | _, None => inl (ValidationError "price")
      | Some t, Some p =>
          let c := get (a_compare_at_price a) None in
          if negb (PyFloat.ge0 p) then inl (ValidationError "price")
          else if match c with Some x => negb (PyFloat.ge0 x) | None => false end
          then inl (ValidationError "compare_at_price")
          else inr {| base := {| title := t;
                                 description := get (a_description a) None;
                                 price := p;
                                 compare_at_price := c;
                                 category := get (a_category a) "Tea";
                                 in_stock := get (a_in_stock a) true;
                                 stock := get (a_stock a) 100;
                                 images := get (a_images a) [];
                                 tags := get (a_tags a) [] |};
                      id := i |}
      end
  end.

(** ** The payment gateway *)

Record ProductData := {
  name : string;
  pd_images : list string
}.

Record PriceData := {
  currency : string;
  product_data : ProductData;
  unit_amount : Z
}.

Record LineItem := {
  price_data : PriceData;
  li_quantity : Z
}.

(** The keyword arguments of [stripe.checkout.Session.create]. *)
Record SessionParams := {
  payment_method_types : list string;
  mode : string;
  line_items : list LineItem;
  sp_success_url : string;
  sp_cancel_url : string;
  sp_customer_email : option string
}.

Record Session := { url : string }.

(** A configured gateway answers a request with a session, or raises an
    exception [e]; the left injection holds [str(e)]. *)
Definition Gateway := SessionParams -> string + Session.

(** Process start: [stripe] is the SDK when [STRIPE_SECRET_KEY] is set
    to a non-empty string and the import succeeds, [None] otherwise. *)
Definition load_stripe (STRIPE_SECRET : option string)
    (stripe_sdk : option Gateway) : option Gateway :=
  match STRIPE_SECRET with
  | None | Some EmptyString => None
  | Some _ => stripe_sdk
  end.

(** ** The world: store contents and the trace of external calls *)

Inductive event :=
| find_one_ev (filter : option ObjectId_t)
| insert_one_ev (d : document)
| update_one_ev (k : ObjectId_t) (set : attrs)
| delete_one_ev (k : ObjectId_t)
| command_ev (cmd : string)
| Session_create_ev (p : SessionParams).

Definition is_store_event (e : event) : bool :=
  match e with Session_create_ev _ => false | _ => true end.

Definition is_gateway_event (e : event) : bool :=
  match e with Session_create_ev _ => true | _ => false end.

(** [db] is [None] when no database is configured, otherwise the
    documents of the ["product"] collection in natural order. *)
Record world := {
  db : option (list document);
  log : list event
}.

Definition gateway_calls (w : world) : list event :=
  filter is_gateway_event (log w).

Definition store_calls (w : world) : list event :=
  filter is_store_event (log w).

(** State and exceptions. *)
Definition M (A : Type) : Type := world -> (exn + A) * world.

Definition ret {A} (a : A) : M A := fun w => (inr a, w).

Definition raise {A} (e : exn) : M A := fun w => (inl e, w).

Definition bind {A B} (m : M A) (f : A -> M B) : M B :=
  fun w =>
    match m w with
    | (inr a, w') => f a w'
    | (inl e, w') => (inl e, w')
    end.

Definition lift {A} (r : exn + A) : M A := fun w => (r, w).

(** [try: m  except Exception: h]. *)
Definition try_except {A} (m : M A) (h : exn -> M A) : M A :=
  fun w =>
    match m w with
    | (inl e, w') => h e w'
    | r => r
    end.

Definition emit (e : event) : M unit :=
  fun w => (inr tt, {| db := db w; log := log w ++ [e] |}).

Declare Scope py_scope.
Delimit Scope py_scope with py.
Notation "x <- m ;; k" := (bind m (fun x => k))
  (at level 61, m at next level, right associativity) : py_scope.
Notation "m ;; k" := (bind m (fun _ => k))
  (at level 61, right associativity) : py_scope.
Local Open Scope py_scope.

(** ** The store driver *)

(** The filter [{"_id": k}] on a document.  Stored keys are 12-byte
    keys: a shorter one, numbered from [2^96] on, is the key of no
    stored document. *)
Definition has_id (k : ObjectId_t) (d : document) : bool :=
  ((k <? 16 ^ 24) && (_id d =? k))%N.

(** [db["product"]]: subscripting [None] raises. *)
Definition db_product : M (list document) :=
  fun w =>
    match db w with
    | None => (inl (TypeError "'NoneType' object is not subscriptable"), w)
    | Some coll => (inr coll, w)
    end.

Definition matches (filter : option ObjectId_t) : document -> bool :=
  match filter with
  | None => fun _ => true
  | Some k => has_id k
  end.

(** [collection.find_one(filter)]: the first matching document. *)
Definition find_one (filter : option ObjectId_t) : M (option document) :=
  coll <- db_product ;;
  emit (find_one_ev filter) ;;
  ret (find (matches filter) coll).

(** [$set]: the attributes given replace the stored ones. *)
Definition set_attrs (upd old : attrs) : attrs :=
  let pick {A} (n o : option A) := match n with Some _ => n | None => o end in
  {| a_title := pick (a_title upd) (a_title old);
     a_description := pick (a_description upd) (a_description old);
     a_price := pick (a_price upd) (a_price old);
     a_compare_at_price := pick (a_compare_at_price upd) (a_compare_at_price old);
     a_category := pick (a_category upd) (a_category old);
     a_in_stock := pick (a_in_stock upd) (a_in_stock old);
     a_stock := pick (a_stock upd) (a_stock old);
     a_images := pick (a_images upd) (a_images old);
     a_tags := pick (a_tags upd) (a_tags old) |}.

Fixpoint update_first (k : ObjectId_t) (upd : attrs) (coll : list document)
  : list document * Z :=
  match coll with
  | [] => ([], 0)
  | d :: rest =>
      if has_id k d
      then ({| _id := _id d; fields := set_attrs upd (fields d) |} :: rest, 1)
      else let (rest', n) := update_first k upd rest in (d :: rest', n)
  end.

Fixpoint delete_first (k : ObjectId_t) (coll : list document)
  : list document * Z :=
  match coll with
  | [] => ([], 0)
  | d :: rest =>
      if has_id k d then (rest, 1)
      else let (rest', n) := delete_first k rest in (d :: rest', n)
  end.

(** [collection.update_one({"_id": k}, {"$set": upd}).matched_count]. *)
Definition update_one (k : ObjectId_t) (upd : attrs) : M Z :=
  coll <- db_product ;;
  fun w =>
    let (coll', matched_count) := update_first k upd coll in
    (inr matched_count,
     {| db := Some coll'; log := log w ++ [update_one_ev k upd] |}).

(** [collection.delete_one({"_id": k}).deleted_count]. *)
Definition delete_one (k : ObjectId_t) : M Z :=
  coll <- db_product ;;
  fun w =>
    let (coll', deleted_count) := delete_first k coll in
    (inr deleted_count,
     {| db := Some coll'; log := log w ++ [delete_one_ev k] |}).

(** [db.command(cmd)]: a round trip to the server. *)
Definition db_command (cmd : string) : M unit :=
  _ <- db_product ;;
  emit (command_ev cmd).

(** Modelled from the spec: [create_document] of the [database] module,
    whose source is not part of the repository files at hand.  It
    "assigns a new unique key" and stores the attributes unchanged, so
    that a later read with that key returns them; the key comes back as
    a string.  The new key is one more than the largest key in use. *)
Definition fresh_id (coll : list document) : ObjectId_t :=
  (1 + fold_right N.max 0 (map _id coll))%N.

Definition create_document (data : attrs) : M string :=
  fun w =>
    match db w with
    | None => (inl (StoreUnavailable "Database not available"), w)
    | Some coll =>
        let d := {| _id := fresh_id coll; fields := data |} in
        (inr (str_ObjectId (_id d)),
         {| db := Some (coll ++ [d]); log := log w ++ [insert_one_ev d] |})
    end.

(** ** Class lookup at line 104

    [create_product] evaluates
    [db.command("serverStatus")["localTime"].__class__.__mro__[1].from_json(new_id)].
    The value under ["localTime"] is a [datetime.datetime]; the classes
    of its method resolution order and the public names each one
    defines are listed here. *)
Inductive pyclass := datetime_datetime | datetime_date | object.

Definition mro (c : pyclass) : list pyclass :=
  match c with
  | datetime_datetime => [datetime_datetime; datetime_date; object]
  | datetime_date => [datetime_date; object]
  | object => [object]
  end.

Definition qualname (c : pyclass) : string :=
  match c with
  | datetime_datetime => "datetime.datetime"
  | datetime_date => "datetime.date"
  | object => "object"
  end.

Definition class_dict (c : pyclass) : list string :=
  match c with
  | datetime_datetime =>
      ["now"; "utcnow"; "fromtimestamp"; "utcfromtimestamp"; "combine";
       "fromisoformat"; "strptime"; "hour"; "minute"; "second";
       "microsecond"; "tzinfo"; "fold"; "date"; "time"; "timetz";
       "replace"; "astimezone"; "utcoffset"; "dst"; "tzname"; "timetuple";
       "utctimetuple"; "timestamp"; "isoformat"; "ctime"; "min"; "max";
       "resolution"]
  | datetime_date =>
      ["today"; "fromtimestamp"; "fromordinal"; "fromisoformat";
       "fromisocalendar"; "min"; "max"; "resolution"; "year"; "month";
       "day"; "replace"; "timetuple"; "toordinal"; "weekday";
       "isoweekday"; "isocalendar"; "isoformat"; "ctime"; "strftime"]
  | object =>
      ["__class__"; "__delattr__"; "__dir__"; "__doc__"; "__eq__";
       "__format__"; "__ge__"; "__getattribute__"; "__gt__"; "__hash__";
       "__init__"; "__init_subclass__"; "__le__"; "__lt__"; "__ne__";
       "__new__"; "__reduce__"; "__reduce_ex__"; "__repr__";
       "__setattr__"; "__sizeof__"; "__str__"; "__subclasshook__"]
  end.

Definition hasattr (c : pyclass) (attr : string) : bool :=
  existsb (fun k => existsb (String.eqb attr) (class_dict k)) (mro c).

(** The argument of the first [find_one] of [create_product].  No class
    defines [from_json], so the attribute lookup raises; were it
    defined, the name says it would read the key back from [new_id]. *)
Definition localTime_from_json (new_id : string) : M ObjectId_t :=
  db_command "serverStatus" ;;
  match nth_error (mro datetime_datetime) 1 with
  | None => raise (IndexError "tuple index out of range")
  | Some c =>
      if hasattr c "from_json" then lift (ObjectId new_id)
      else raise (AttributeError
                    ("type object '" ++ qualname c
                       ++ "' has no attribute 'from_json'")%string)
  end.

(** ** Products *)

Definition db_is_None : M bool :=
  fun w => (inr (match db w with None => true | Some _ => false end), w).

Definition create_product (payload : ProductIn) : M Product :=
  none <- db_is_None ;;
  if none : bool then raise (HTTPException 500 "Database not configured")
  else
    let data := model_dump payload in
    new_id <- create_document data ;;
    saved <- (db_product ;;
              k <- localTime_from_json new_id ;;
              find_one (Some k)) ;;
    (* Fallback fetch by _id string cast *)
    saved <- try_except
               (db_product ;;
                k <- lift (ObjectId new_id) ;;
                find_one (Some k))
               (fun _ => find_one None) ;;
    lift (Product_of (serialize_doc saved)).

Definition get_product (product_id : string) : M Product :=
  db_product ;;
  k <- lift (ObjectId product_id) ;;
  doc <- find_one (Some k) ;;
  match doc with
  | None => raise (HTTPException 404 "Product not found")
  | Some _ => lift (Product_of (serialize_doc doc))
  end.

Definition update_product (product_id : string) (payload : ProductIn)
  : M Product :=
  db_product ;;
  k <- lift (ObjectId product_id) ;;
  matched_count <- update_one k (model_dump payload) ;;
  if matched_count =? 0 then raise (HTTPException 404 "Product not found")
  else
    db_product ;;
    k <- lift (ObjectId product_id) ;;
    doc <- find_one (Some k) ;;
    lift (Product_of (serialize_doc doc)).

(** The answer [{"success": True}] is the boolean. *)
Definition delete_product (product_id : string) : M bool :=
  db_product ;;
  k <- lift (ObjectId product_id) ;;
  deleted_count <- delete_one k ;;
  if deleted_count =? 0 then raise (HTTPException 404 "Product not found")
  else ret true.

(** ** Checkout with Stripe *)

(** A Python number: what [prod.get("price", 0)] evaluates to. *)
Inductive number := PInt (n : Z) | PFloat (f : float).

Definition py_float (x : number) : exn + float :=
  match x with
  | PFloat f => inr f
  | PInt n =>
      match PyFloat.of_int n with
      | Some f => inr f
      | None => inl (OverflowError "int too large to convert to float")
      end
  end.

Definition py_int (f : float) : exn + Z :=
  match PyFloat.to_int f with
  | inr n => inr n
  | inl PyFloat.IsNaN =>
      inl (ValueError "cannot convert float NaN to integer")
  | inl PyFloat.IsInfinite =>
      inl (OverflowError "cannot convert float infinity to integer")
  end.

(** [int(float(prod.get("price", 0)) * 100)]. *)
Definition unit_amount_of (prod : document) : exn + Z :=
  match py_float (match a_price (fields prod) with
                  | Some f => PFloat f
                  | None => PInt 0
                  end) with
  | inl e => inl e
  | inr f => py_int (PyFloat.mul f (PyFloat.lit 100))
  end.

Definition line_item (prod : document) (item : CartItem) (amount : Z)
  : LineItem :=
  {| price_data :=
       {| currency := "usd";
          product_data :=
            {| name := get (a_title (fields prod)) "Product";
               pd_images := firstn 1 (get (a_images (fields prod)) []) |};
          unit_amount := amount |};
     li_quantity := quantity item |}.

(** The [for] loop: [acc] is [line_items] so far. *)
Fixpoint build_line_items (cart : list CartItem) (acc : list LineItem)
  : M (list LineItem) :=
  match cart with
  | [] => ret acc
  | item :: rest =>
      db_product ;;
      k <- lift (ObjectId (product_id item)) ;;
      prod <- find_one (Some k) ;;
      match prod with
      | None =>
          raise (HTTPException 404
                   ("Product not found: " ++ product_id item)%string)
      | Some prod =>
          amount <- lift (unit_amount_of prod) ;;
          build_line_items rest (acc ++ [line_item prod item amount])
      end
  end.

Definition session_params (req : CheckoutRequest) (lines : list LineItem)
  : SessionParams :=
  {| payment_method_types := ["card"];
     mode := "payment";
     line_items := lines;
     sp_success_url := success_url req;
     sp_cancel_url := cancel_url req;
     sp_customer_email := customer_email req |}.

(** [stripe.checkout.Session.create(...)]: one call, traced. *)
Definition Session_create (stripe : Gateway) (p : SessionParams)
  : world -> (string + Session) * world :=
  fun w => (stripe p, {| db := db w; log := log w ++ [Session_create_ev p] |}).

Record CheckoutResponse := { resp_url : string }.

Definition create_checkout_session (stripe : option Gateway)
    (req : CheckoutRequest) : M CheckoutResponse :=
  match stripe with
  | None =>
      raise (HTTPException 400
        "Stripe is not configured. Set STRIPE_SECRET_KEY environment variable.")
  | Some sdk =>
      (* Build line items from product ids to prevent price tampering *)
      lines <- build_line_items (items req) [] ;;
      fun w =>
        match Session_create sdk (session_params req lines) w with
        | (inr session, w') => (inr {| resp_url := url session |}, w')
        | (inl str_e, w') => (inl (HTTPException 500 str_e), w')
        end
  end.

(** ** Traces, resolution and restocking *)

Definition add_log (w : world) (evs : list event) : world :=
  {| db := db w; log := log w ++ evs |}.

(** [built coll item k li]: [item] carries a well-formed identifier [k]
    of a stored product whose price converts, and [li] is the line item
    the loop appends for it. *)
Inductive built (coll : list document) (item : CartItem)
  : ObjectId_t * LineItem -> Prop :=
| built_intro k prod amount :
    ObjectId (product_id item) = inr k ->
    find (has_id k) coll = Some prod ->
    unit_amount_of prod = inr amount ->
    built coll item (k, line_item prod item amount).

Definition lookups (rs : list (ObjectId_t * LineItem)) : list event :=
  map (fun r => find_one_ev (Some (fst r))) rs.

(** A lookup by key in the trace. *)
Definition is_lookup (e : event) : Prop := exists k, e = find_one_ev (Some k).

(** What the handler answers once the gateway has been asked. *)
Definition gateway_outcome (sdk : Gateway) (p : SessionParams)
  : exn + CheckoutResponse :=
  match sdk p with
  | inr session => inr {| resp_url := url session |}
  | inl str_e => inl (HTTPException 500 str_e)
  end.

(** ** Sample data *)

Definition key_of (s : string) : ObjectId_t :=
  match ObjectId s with inr k => k | inl _ => 0%N end.

Definition tea_id : string := "64b7f3a2c1d4e5f6a7b8c9d0".
Definition chai_id : string := "64b7f3a2c1d4e5f6a7b8c9d1".
Definition bare_id : string := "64B7F3A2C1D4E5F6A7B8C9D2".
Definition absent_id : string := "64b7f3a2c1d4e5f6a7b8c9ff".
Definition malformed_id : string := "not-an-id".

Definition tea : ProductIn :=
  {| title := "Green Tea"; description := Some "Loose leaf";
     price := PyFloat.decimal 999 2; compare_at_price := None;
     category := "Tea"; in_stock := true; stock := 100;
     images := ["https://cdn.example/green-1.png";
                "https://cdn.example/green-2.png"];
     tags := ["green"] |}.

Definition chai : ProductIn :=
  {| title := "Masala Chai"; description := None;
     price := PyFloat.decimal 1999 2; compare_at_price := None;
     category := "Tea"; in_stock := false; stock := 0;
     images := []; tags := [] |}.

Definition tea_doc : document :=
  {| _id := key_of tea_id; fields := model_dump tea |}.

Definition chai_doc : document :=
  {| _id := key_of chai_id; fields := model_dump chai |}.

(** A document written by another client: no title, no price. *)
Definition bare_doc : document :=
  {| _id := key_of bare_id;
     fields := {| a_title := None; a_description := None; a_price := None;
                  a_compare_at_price := None; a_category := None;
                  a_in_stock := Some false; a_stock := Some 0;
                  a_images := Some ["https://cdn.example/bare.png"];
                  a_tags := None |} |}.

Definition sample_store : list document := [tea_doc; chai_doc; bare_doc].

Definition w0 : world := {| db := Some sample_store; log := [] |}.

Definition cart_of (l : list (string * Z)) : list CartItem :=
  map (fun p => {| product_id := fst p; quantity := snd p |}) l.

Definition request (l : list (string * Z)) : CheckoutRequest :=
  {| items := cart_of l;
     customer_email := Some "Ann@Example.com";
     success_url := "https://shop.example/thanks";
     cancel_url := "https://shop.example/cart" |}.

Definition test_gateway : Gateway :=
  fun _ => inr {| url := "https://checkout.stripe.com/c/pay/cs_test_a1B2" |}.

Definition failing_gateway : Gateway :=
  fun _ => inl "Request req_123: rate limit exceeded".

Definition not_configured : exn :=
  HTTPException 400
    "Stripe is not configured. Set STRIPE_SECRET_KEY environment variable.".

(** ** Statements of the specification *)

Definition not_found_detail (item : CartItem) : string :=
  ("Product not found: " ++ product_id item)%string.

(** [item] names the stored product [prod]. *)
Definition resolves_to (coll : list document) (item : CartItem)
    (prod : document) : Prop :=
  exists k,
    ObjectId (product_id item) = inr k /\ find (has_id k) coll = Some prod.



(** [item] names no stored product. *)
Definition unresolved (coll : list document) (item : CartItem) : Prop :=
  forall k, ObjectId (product_id item) = inr k -> find (has_id k) coll = None.

(** The spec's checkout atomicity for a request with an unresolved item:
    a 404 naming that item and no gateway call. *)
Definition spec_not_found_aborts (stripe : option Gateway)
    (req : CheckoutRequest) (w : world) : Prop :=
  exists item,
    In item (items req) /\
    fst (create_checkout_session stripe req w)
      = inl (HTTPException 404 (not_found_detail item)) /\
    gateway_calls (snd (create_checkout_session stripe req w))
      = gateway_calls w.





(** ** Listing *)

(** Modelled from the spec: [get_documents] of the [database] module,
    whose source is not part of the repository files at hand.  With the
    empty filter it is the spec's "read_many(collection, filter)": the
    documents of the collection, here in natural order; without a
    configured store the catalog answers with a server error.  The
    driver's [find] command is traced. *)
Definition get_documents : M (list document) :=
  fun w =>
    match db w with
    | None => (inl (StoreUnavailable "Database not available"), w)
    | Some coll =>
        (inr coll, {| db := db w; log := log w ++ [command_ev "find"] |})
    end.

(** The comprehension over [docs] of [list_products], each document
    serialized and validated as a [Product]: left to right, the first
    failure ends it. *)
Fixpoint Products_of (docs : list document) : exn + list Product :=
  match docs with
  | [] => inr []
  | d :: rest =>
      match Product_of (serialize_doc (Some d)) with
      | inl e => inl e
      | inr p =>
          match Products_of rest with
          | inl e => inl e
          | inr ps => inr (p :: ps)
          end
      end
  end.

Definition list_products : M (list Product) :=
  docs <- get_documents ;;
  lift (Products_of docs).

(** ** Invariants of the store *)

(** No two stored documents share a key. *)
Definition keys_unique (w : world) : Prop :=
  match db w with
  | Some coll => NoDup (map _id coll)
  | None => True
  end.

(** [m] keeps [P]: whatever it answers, a world satisfying [P] is left
    satisfying [P]. *)
Definition keeps {A} (P : world -> Prop) (m : M A) : Prop :=
  forall w, P w -> P (snd (m w)).

(** The store is the one of [w0]. *)
Definition same_store (w0 w : world) : Prop := db w = db w0.

(** The product a stored document is read as. *)
Definition as_product (d : document) : exn + Product :=
  Product_of (serialize_doc (Some d)).

(** A document whose price is positive infinity. *)
Definition gold_id : string := "64b7f3a2c1d4e5f6a7b8c9d3".

Definition gold_doc : document :=
  {| _id := key_of gold_id;
     fields := {| a_title := Some "Gold Leaf"; a_description := None;
                  a_price := Some (S754_infinity false);
                  a_compare_at_price := None; a_category := None;
                  a_in_stock := None; a_stock := None;
                  a_images := None; a_tags := None |} |}.

(** A document holding the required attributes only. *)
Definition plain_id : string := "64b7f3a2c1d4e5f6a7b8c9d4".

Definition plain_doc : document :=
  {| _id := key_of plain_id;
     fields := {| a_title := Some "Plain"; a_description := None;
                  a_price := Some (PyFloat.lit 5);
                  a_compare_at_price := None; a_category := None;
                  a_in_stock := None; a_stock := None;
                  a_images := None; a_tags := None |} |}.

Definition w1 : world :=
  {| db := Some [tea_doc; gold_doc; plain_doc]; log := [] |}.


(** A payload the schema accepts whose price, 1e307, times 100 exceeds
    the largest float, and the world after it has been stored by an
    update. *)
Definition bulk : ProductIn :=
  {| title := "Bulk Lot"; description := None;
     price := PyFloat.lit (10 ^ 307); compare_at_price := None;
     category := "Tea"; in_stock := true; stock := 1;
     images := []; tags := [] |}.

Definition bulk_doc : document :=
  {| _id := key_of chai_id; fields := model_dump bulk |}.

Definition bulk_store : list document := [tea_doc; bulk_doc; bare_doc].

Definition w_bulk : world := snd (update_product chai_id bulk w0).

(** A document with some optional attributes present and some absent. *)
Definition herbal_id : string := "64b7f3a2c1d4e5f6a7b8c9d5".

Definition herbal_doc : document :=
  {| _id := key_of herbal_id;
     fields := {| a_title := Some "Mint"; a_description := None;
                  a_price := Some (PyFloat.lit 5);
                  a_compare_at_price := Some (Some (PyFloat.lit 6));
                  a_category := Some "Herbal"; a_in_stock := None;
                  a_stock := Some 7;
                  a_images := Some ["https://cdn.example/mint.png"];
                  a_tags := None |} |}.

Definition w_herbal : world :=
  {| db := Some [tea_doc; herbal_doc]; log := [] |}.

(** * Properties *)

(** ** Identifiers *)

Lemma hex_value_all_hex s : forall acc,
  hex_value s acc = None <-> all_hex s = false.
Proof.
  induction s as [|c s IH]; intros acc; simpl.
  - split; discriminate.
  - destruct (hex_digit c); [apply IH | tauto].
Qed.

Lemma is_space_not_hex c : is_space c = true -> hex_digit c = None.
Proof.
  unfold is_space, hex_digit. intros H.
  apply orb_true_iff in H as [H|H].
  - apply N.eqb_eq in H. now rewrite H.
  - apply andb_true_iff in H as [H1 H2].
    apply N.leb_le in H1. apply N.leb_le in H2.
    repeat match goal with
           | |- (if ?b then _ else _) = _ => destruct b eqn:?
           end; try reflexivity;
      repeat match goal with
             | H : (_ && _)%bool = true |- _ =>
                 apply andb_true_iff in H as [? ?]
             | H : (_ <=? _)%N = true |- _ => apply N.leb_le in H
             end; lia.
Qed.


(** On hexadecimal digits [fromhex] reads the bytes of the number the
    digits write. *)
Lemma fromhex_hex s : forall top acc,
  all_hex s = true ->
  Nat.even (String.length s + match top with Some _ => 1 | None => 0 end)
    = true ->
  exists bs,
    fromhex s top = Some bs /\
    (2 * List.length bs
     = String.length s + match top with Some _ => 1 | None => 0 end)%nat /\
    hex_value s (match top with Some t => 16 * acc + t | None => acc end)%N
      = Some (bytes_value bs acc).
Proof.
  induction s as [|c s IH]; intros top acc Hhex Heven.
  - destruct top; [discriminate Heven|]. now exists [].
  - cbn [all_hex] in Hhex.
    destruct (hex_digit c) as [d|] eqn:Hc; [|discriminate].
    cbn [fromhex hex_value String.length]. rewrite Hc.
    cbn [String.length] in Heven.
    destruct top as [t|].
    + destruct (IH None (256 * acc + (16 * t + d))%N Hhex)
        as (bs & -> & Hl & Hv).
      { rewrite Nat.add_0_r. rewrite <- Heven.
        replace (S (String.length s) + 1)%nat
          with (S (S (String.length s))) by lia.
        reflexivity. }
      exists ((16 * t + d)%N :: bs). split; [reflexivity|].
      cbn [List.length bytes_value]. split; [lia|].
      rewrite <- Hv. f_equal. lia.
    + destruct (is_space c) eqn:Hsp;
        [rewrite (is_space_not_hex c Hsp) in Hc; discriminate|].
      destruct (IH (Some d) acc Hhex) as (bs & -> & Hl & Hv).
      { rewrite <- Heven. f_equal. lia. }
      exists bs. split; [reflexivity|]. split; [lia | exact Hv].
Qed.

(** On 24 hexadecimal digits [ObjectId] reads the 12-byte key they
    write. *)
Lemma ObjectId_hex s :
  well_formed_id s = true ->
  exists k, hex_value s 0 = Some k /\ ObjectId s = inr k.
Proof.
  unfold well_formed_id, ObjectId. intros H.
  apply andb_true_iff in H as [Hlen Hhex]. rewrite Hlen.
  apply Nat.eqb_eq in Hlen.
  destruct (fromhex_hex s None 0%N Hhex) as (bs & -> & Hl & Hv).
  { now rewrite Hlen. }
  exists (bytes_value bs 0). split; [exact Hv|].
  unfold key_of_bytes.
  replace (List.length bs) with 12%nat by lia. reflexivity.
Qed.

Lemma ObjectId_well_formed s :
  well_formed_id s = true -> exists k, ObjectId s = inr k.
Proof.
  intros H. destruct (ObjectId_hex s H) as (k & _ & Hk). now exists k.
Qed.




(** ** Worlds *)

Lemma add_log_nil w : add_log w [] = w.
Proof. destruct w; unfold add_log; simpl. now rewrite app_nil_r. Qed.

Lemma add_log_app w e1 e2 : add_log (add_log w e1) e2 = add_log w (e1 ++ e2).
Proof. unfold add_log; simpl. now rewrite app_assoc. Qed.

Lemma gateway_calls_add_log w evs :
  gateway_calls (add_log w evs) = gateway_calls w ++ filter is_gateway_event evs.
Proof. unfold gateway_calls, add_log; simpl. apply filter_app. Qed.

Lemma store_calls_add_log w evs :
  store_calls (add_log w evs) = store_calls w ++ filter is_store_event evs.
Proof. unfold store_calls, add_log; simpl. apply filter_app. Qed.

(** ** The store driver *)

Lemma find_one_run w coll filter :
  db w = Some coll ->
  find_one filter w = (inr (find (matches filter) coll), add_log w [find_one_ev filter]).
Proof.
  intros H. unfold find_one, bind, db_product, emit, ret, add_log.
  rewrite H. cbn. now rewrite H.
Qed.

Lemma update_first_absent k upd coll :
  find (has_id k) coll = None -> update_first k upd coll = (coll, 0).
Proof.
  induction coll as [|d coll IH]; simpl; [reflexivity|].
  destruct (has_id k d); [discriminate|].
  intros H. now rewrite (IH H).
Qed.

Lemma delete_first_absent k coll :
  find (has_id k) coll = None -> delete_first k coll = (coll, 0).
Proof.
  induction coll as [|d coll IH]; simpl; [reflexivity|].
  destruct (has_id k d); [discriminate|].
  intros H. now rewrite (IH H).
Qed.

(** ** The checkout loop *)

Lemma lookups_no_gateway rs : filter is_gateway_event (lookups rs) = [].
Proof. induction rs; simpl; auto. Qed.

(** The loop over a prefix of resolvable items: one lookup each, the
    line items appended in cart order. *)
Lemma build_line_items_prefix coll pre rs : forall rest acc w,
  db w = Some coll ->
  Forall2 (built coll) pre rs ->
  build_line_items (pre ++ rest) acc w =
  build_line_items rest (acc ++ map snd rs) (add_log w (lookups rs)).
Proof.
  intros rest acc w Hdb HF. revert acc w Hdb.
  induction HF as [|item r pre rs Hb HF IH]; intros acc w Hdb.
  - simpl. now rewrite app_nil_r, add_log_nil.
  - destruct Hb as [k prod amount Hk Hfind Hamount].
    cbn [app build_line_items].
    unfold bind at 1. unfold db_product at 1. rewrite Hdb.
    unfold bind at 1. unfold lift at 1. rewrite Hk.
    unfold bind at 1. rewrite (find_one_run w coll (Some k) Hdb).
    cbn [matches]. rewrite Hfind.
    unfold bind at 1. unfold lift at 1. rewrite Hamount.
    rewrite IH by (simpl; exact Hdb).
    cbn [map snd fst lookups]. rewrite add_log_app.
    rewrite <- app_assoc. reflexivity.
Qed.

Lemma build_line_items_built coll cart rs w :
  db w = Some coll ->
  Forall2 (built coll) cart rs ->
  build_line_items cart [] w = (inr (map snd rs), add_log w (lookups rs)).
Proof.
  intros Hdb HF.
  rewrite <- (app_nil_r cart).
  rewrite (build_line_items_prefix coll cart rs [] [] w Hdb HF).
  reflexivity.
Qed.

(** Whatever the cart, the loop only adds lookups to the trace: it
    never calls the gateway and never writes to the store. *)
Lemma build_line_items_trace cart : forall acc w,
  exists evs, snd (build_line_items cart acc w) = add_log w evs /\
              Forall is_lookup evs.
Proof.
  induction cart as [|item rest IH]; intros acc w.
  - exists []. now rewrite add_log_nil.
  - cbn [build_line_items]. unfold bind at 1. unfold db_product at 1.
    destruct (db w) as [coll|] eqn:Hdb;
      [|exists []; now rewrite add_log_nil].
    unfold bind at 1. unfold lift at 1.
    destruct (ObjectId (product_id item)) as [e|k];
      [exists []; now rewrite add_log_nil|].
    unfold bind at 1. rewrite (find_one_run w coll (Some k) Hdb).
    assert (Hl : Forall is_lookup [find_one_ev (Some k)])
      by (repeat constructor; now exists k).
    destruct (find (matches (Some k)) coll) as [prod|];
      [|exists [find_one_ev (Some k)]; now split].
    unfold bind at 1. unfold lift at 1.
    destruct (unit_amount_of prod) as [e|amount];
      [exists [find_one_ev (Some k)]; now split|].
    destruct (IH (acc ++ [line_item prod item amount])
                (add_log w [find_one_ev (Some k)])) as [evs [Hs Hf]].
    exists (find_one_ev (Some k) :: evs). split.
    + rewrite Hs. now rewrite add_log_app.
    + constructor; [now exists k | exact Hf].
Qed.

Lemma lookups_quiet evs :
  Forall is_lookup evs -> filter is_gateway_event evs = [].
Proof.
  induction 1 as [|e evs [k ->] _ IH]; simpl; auto.
Qed.

Lemma build_line_items_quiet cart acc w :
  gateway_calls (snd (build_line_items cart acc w)) = gateway_calls w /\
  db (snd (build_line_items cart acc w)) = db w.
Proof.
  destruct (build_line_items_trace cart acc w) as [evs [-> Hf]].
  rewrite gateway_calls_add_log, (lookups_quiet evs Hf), app_nil_r.
  now split.
Qed.

Lemma checkout_after_loop sdk req w lines w' :
  build_line_items (items req) [] w = (inr lines, w') ->
  create_checkout_session (Some sdk) req w =
  (gateway_outcome sdk (session_params req lines),
   add_log w' [Session_create_ev (session_params req lines)]).
Proof.
  intros H. unfold create_checkout_session, bind. rewrite H.
  unfold Session_create, gateway_outcome, add_log.
  now destruct (sdk (session_params req lines)).
Qed.

Lemma checkout_built sdk req w coll rs :
  db w = Some coll ->
  Forall2 (built coll) (items req) rs ->
  create_checkout_session (Some sdk) req w =
  (gateway_outcome sdk (session_params req (map snd rs)),
   add_log w (lookups rs ++ [Session_create_ev (session_params req (map snd rs))])).
Proof.
  intros Hdb HF.
  rewrite (checkout_after_loop sdk req w _ _
             (build_line_items_built coll _ rs w Hdb HF)).
  now rewrite add_log_app.
Qed.

(** ** One step of the loop *)

Lemma build_line_items_not_found coll item rest acc w k :
  db w = Some coll ->
  ObjectId (product_id item) = inr k ->
  find (has_id k) coll = None ->
  build_line_items (item :: rest) acc w =
  (inl (HTTPException 404 (not_found_detail item)),
   add_log w [find_one_ev (Some k)]).
Proof.
  intros Hdb Hk Hfind. cbn [build_line_items].
  unfold bind at 1. unfold db_product at 1. rewrite Hdb.
  unfold bind at 1. unfold lift at 1. rewrite Hk.
  unfold bind at 1. rewrite (find_one_run w coll (Some k) Hdb).
  cbn [matches]. rewrite Hfind. reflexivity.
Qed.





(** ** Pricing *)

Example unit_amount_9_99 : unit_amount_of tea_doc = inr 999.
Proof. reflexivity. Qed.

(** [int] truncates: on a positive finite float [m * 2^e] it returns
    the integer part of the exact value. *)
Lemma to_int_truncates m e n :
  PyFloat.to_int (S754_finite false m e) = inr n ->
  match e with
  | Zneg p => n * 2 ^ Zpos p <= Zpos m < (n + 1) * 2 ^ Zpos p
  | _ => n = Zpos m * 2 ^ e
  end.
Proof.
  unfold PyFloat.to_int. intros H. injection H as <-.
  destruct e as [|p|p]; [lia | reflexivity |].
  assert (Hd : 0 < 2 ^ Zpos p) by (apply Z.pow_pos_nonneg; lia).
  pose proof (Z.mul_div_le (Zpos m) _ Hd).
  pose proof (Z.mul_succ_div_gt (Zpos m) _ Hd). lia.
Qed.

(** C1 (the code departs from the claim): a product stored with price
    19.99 is charged 1998 minor units, where [round(price * 100)] is
    1999: the handler truncates the binary product 1998.9999999999998
    instead of rounding it. *)
Theorem unit_amount_19_99_truncated :
  price chai = PyFloat.decimal 1999 2 /\
  PyFloat.mul (price chai) (PyFloat.lit 100)
    = S754_finite false 8791694975696895 (-42) /\
  PyFloat.round (PyFloat.mul (price chai) (PyFloat.lit 100)) = inr 1999 /\
  unit_amount_of chai_doc = inr 1998 /\
  map (fun li => unit_amount (price_data li))
      (flat_map (fun e => match e with
                          | Session_create_ev p => line_items p
                          | _ => []
                          end)
                (log (snd (create_checkout_session (Some test_gateway)
                             (request [(chai_id, 1)]) w0))))
  = [1998].
Proof. repeat split; vm_compute; reflexivity. Qed.

(** ** Checkout: unresolved items *)

(** C2 (as stated, refuted): gateway and store configured, a cart whose
    first item resolves to a stored product priced 1e307 (a price the
    schema accepts, stored by an update) and whose second item names no
    stored product: the request does not abort with the 404 naming the
    unresolved item, it ends at the first item with an [OverflowError]
    that the caller sees as a 500. *)
Lemma checkout_not_found_counterexample :
  valid_ProductIn bulk = true /\
  db w_bulk = Some bulk_store /\
  resolves_to bulk_store {| product_id := chai_id; quantity := 1 |}
    bulk_doc /\
  Exists (unresolved bulk_store)
    (items (request [(chai_id, 1); (absent_id, 1)])) /\
  fst (create_checkout_session (Some test_gateway)
         (request [(chai_id, 1); (absent_id, 1)]) w_bulk)
    = inl (OverflowError "cannot convert float infinity to integer") /\
  ~ spec_not_found_aborts (Some test_gateway)
      (request [(chai_id, 1); (absent_id, 1)]) w_bulk.
Proof.
  split; [reflexivity|]. split; [reflexivity|].
  split; [exists (key_of chai_id); split; reflexivity|].
  split.
  - apply Exists_cons_tl. constructor. intros k Hk. vm_compute in Hk.
    injection Hk as <-. reflexivity.
  - split; [vm_compute; reflexivity|].
    intros (item & _ & H & _). vm_compute in H. discriminate.
Qed.

(** C2 (amended): with the gateway and the store configured, when the
    first cart item that does not yield a line item is one whose
    identifier is read as a key of no stored product (every item before
    it resolving to a product whose price converts), the request aborts
    with 404 "Product not found: <id>" naming that identifier, after one
    lookup per item up to it and without any gateway call or store
    write. *)
Theorem checkout_unresolved_item_aborts sdk req w coll pre item post rs k :
  db w = Some coll ->
  items req = pre ++ item :: post ->
  Forall2 (built coll) pre rs ->
  ObjectId (product_id item) = inr k ->
  find (has_id k) coll = None ->
  create_checkout_session (Some sdk) req w =
    (inl (HTTPException 404 ("Product not found: " ++ product_id item)%string),
     add_log w (lookups rs ++ [find_one_ev (Some k)])) /\
  gateway_calls (snd (create_checkout_session (Some sdk) req w))
    = gateway_calls w /\
  db (snd (create_checkout_session (Some sdk) req w)) = db w.
Proof.
  intros Hdb Hitems Hpre Hk Hfind.
  assert (E : create_checkout_session (Some sdk) req w =
    (inl (HTTPException 404 (not_found_detail item)),
     add_log w (lookups rs ++ [find_one_ev (Some k)]))).
  { unfold create_checkout_session, bind. rewrite Hitems.
    rewrite (build_line_items_prefix coll pre rs _ _ w Hdb Hpre).
    rewrite (build_line_items_not_found coll item post _ _ k); auto.
    now rewrite add_log_app. }
  rewrite E. split; [reflexivity|]. split; [|reflexivity].
  cbn [snd]. rewrite gateway_calls_add_log, filter_app, lookups_no_gateway.
  simpl. now rewrite app_nil_r.
Qed.

Lemma checkout_unresolved_item_aborts_witness :
  create_checkout_session (Some test_gateway)
    (request [(tea_id, 2); (absent_id, 1); (chai_id, 1)]) w0 =
    (inl (HTTPException 404 "Product not found: 64b7f3a2c1d4e5f6a7b8c9ff"),
     add_log w0 [find_one_ev (Some (key_of tea_id));
                 find_one_ev (Some (key_of absent_id))]) /\
  gateway_calls (snd (create_checkout_session (Some test_gateway)
    (request [(tea_id, 2); (absent_id, 1); (chai_id, 1)]) w0)) = [] /\
  db (snd (create_checkout_session (Some test_gateway)
    (request [(tea_id, 2); (absent_id, 1); (chai_id, 1)]) w0)) = db w0.
Proof.
  apply (checkout_unresolved_item_aborts test_gateway
           (request [(tea_id, 2); (absent_id, 1); (chai_id, 1)]) w0
           sample_store
           (cart_of [(tea_id, 2)])
           {| product_id := absent_id; quantity := 1 |}
           (cart_of [(chai_id, 1)])
           [(key_of tea_id,
             line_item tea_doc {| product_id := tea_id; quantity := 2 |} 999)]
           (key_of absent_id)).
  - reflexivity.
  - reflexivity.
  - constructor; [|constructor].
    apply (built_intro sample_store _ (key_of tea_id) tea_doc 999);
      reflexivity.
  - reflexivity.
  - reflexivity.
Defined.

(** ** Catalog: create *)

(** On a configured store [create_product] inserts the document and
    then always raises at the attribute lookup of its first re-read. *)
Lemma create_product_raises payload w coll :
  db w = Some coll ->
  create_product payload w =
  (inl (AttributeError
          "type object 'datetime.date' has no attribute 'from_json'"),
   {| db := Some (coll ++ [{| _id := fresh_id coll;
                              fields := model_dump payload |}]);
      log := log w ++ [insert_one_ev {| _id := fresh_id coll;
                                        fields := model_dump payload |};
                       command_ev "serverStatus"] |}).
Proof.
  intros Hdb. unfold create_product.
  unfold bind at 1. unfold db_is_None. rewrite Hdb.
  unfold bind at 1. unfold create_document. rewrite Hdb.
  unfold bind, db_product, localTime_from_json, db_command, emit, raise.
  cbn. now rewrite <- app_assoc.
Qed.

Lemma create_product_unconfigured payload w :
  db w = None ->
  create_product payload w =
  (inl (HTTPException 500 "Database not configured"), w).
Proof.
  intros Hdb. unfold create_product, bind, db_is_None. now rewrite Hdb.
Qed.

Lemma create_product_never_returns payload w p :
  fst (create_product payload w) <> inr p.
Proof.
  destruct (db w) as [coll|] eqn:Hdb.
  - now rewrite (create_product_raises payload w coll Hdb).
  - now rewrite (create_product_unconfigured payload w Hdb).
Qed.

(** C3 (the code departs from the claim): on a configured, empty store
    [create] of a valid payload stores the record but answers with an
    [AttributeError] (status 500) instead of the created product, so no
    identifier is returned to [get] with; the record itself is stored
    and [get] on its key returns the payload. *)
Theorem create_product_fails_after_insert :
  valid_ProductIn tea = true /\
  create_product tea {| db := Some []; log := [] |} =
    (inl (AttributeError
            "type object 'datetime.date' has no attribute 'from_json'"),
     {| db := Some [{| _id := 1%N; fields := model_dump tea |}];
        log := [insert_one_ev {| _id := 1%N; fields := model_dump tea |};
                command_ev "serverStatus"] |}) /\
  http_status (AttributeError
            "type object 'datetime.date' has no attribute 'from_json'") = 500 /\
  fst (get_product "000000000000000000000001"
         (snd (create_product tea {| db := Some []; log := [] |})))
    = inr {| base := tea; id := "000000000000000000000001" |}.
Proof. repeat split; vm_compute; reflexivity. Qed.

(** ** Malformed identifiers *)


(** ** Checkout: gateway configuration *)

(** C5: when [STRIPE_SECRET_KEY] is unset or empty at process start (or
    the SDK cannot be loaded), every create-session call raises
    [HTTPException] 400 whatever the request, and the world, trace
    included, is unchanged: neither the store nor the gateway is
    contacted. *)
Theorem checkout_gateway_unavailable stripe_sdk secret req w :
  create_checkout_session (load_stripe None stripe_sdk) req w
    = (inl not_configured, w) /\
  create_checkout_session (load_stripe (Some "") stripe_sdk) req w
    = (inl not_configured, w) /\
  create_checkout_session (load_stripe secret None) req w
    = (inl not_configured, w) /\
  http_status not_configured = 400.
Proof.
  repeat split.
  destruct secret as [[|c s]|]; reflexivity.
Qed.

(** ** Checkout: the gateway call *)

(** C6: once the line items are built, the handler makes exactly one
    call to the gateway, with card as the only payment method, mode
    "payment", the built line items, and the request's success URL,
    cancel URL and customer email as received; it answers with the
    session's URL as issued when the gateway succeeds and with
    [HTTPException] 500 carrying the gateway's message when it fails. *)
Theorem checkout_gateway_call sdk req w lines w' :
  build_line_items (items req) [] w = (inr lines, w') ->
  session_params req lines =
    {| payment_method_types := ["card"];
       mode := "payment";
       line_items := lines;
       sp_success_url := success_url req;
       sp_cancel_url := cancel_url req;
       sp_customer_email := customer_email req |} /\
  snd (create_checkout_session (Some sdk) req w)
    = add_log w' [Session_create_ev (session_params req lines)] /\
  gateway_calls (snd (create_checkout_session (Some sdk) req w))
    = gateway_calls w ++ [Session_create_ev (session_params req lines)] /\
  (forall session, sdk (session_params req lines) = inr session ->
     fst (create_checkout_session (Some sdk) req w)
       = inr {| resp_url := url session |}) /\
  (forall message, sdk (session_params req lines) = inl message ->
     fst (create_checkout_session (Some sdk) req w)
       = inl (HTTPException 500 message) /\
     http_status (HTTPException 500 message) = 500).
Proof.
  intros Hloop.
  rewrite (checkout_after_loop sdk req w lines w' Hloop). cbn [fst snd].
  split; [reflexivity|]. split; [reflexivity|]. split.
  - rewrite gateway_calls_add_log. simpl.
    pose proof (build_line_items_quiet (items req) [] w) as [Hq _].
    rewrite Hloop in Hq. cbn [snd] in Hq. now rewrite Hq.
  - unfold gateway_outcome.
    split; [intros session -> | intros message ->]; auto.
Qed.

Lemma checkout_gateway_call_witness :
  fst (create_checkout_session (Some test_gateway)
         (request [(tea_id, 2)]) w0)
    = inr {| resp_url := "https://checkout.stripe.com/c/pay/cs_test_a1B2" |} /\
  fst (create_checkout_session (Some failing_gateway)
         (request [(tea_id, 2)]) w0)
    = inl (HTTPException 500 "Request req_123: rate limit exceeded") /\
  gateway_calls (snd (create_checkout_session (Some failing_gateway)
                        (request [(tea_id, 2)]) w0))
    = [Session_create_ev
         {| payment_method_types := ["card"];
            mode := "payment";
            line_items :=
              [line_item tea_doc {| product_id := tea_id; quantity := 2 |} 999];
            sp_success_url := "https://shop.example/thanks";
            sp_cancel_url := "https://shop.example/cart";
            sp_customer_email := Some "Ann@Example.com" |}].
Proof.
  assert (Hloop : build_line_items (items (request [(tea_id, 2)])) [] w0 =
    (inr [line_item tea_doc {| product_id := tea_id; quantity := 2 |} 999],
     add_log w0 [find_one_ev (Some (key_of tea_id))])) by reflexivity.
  split; [|split].
  - destruct (checkout_gateway_call test_gateway _ _ _ _ Hloop)
      as (_ & _ & _ & Hok & _).
    apply (Hok {| url := "https://checkout.stripe.com/c/pay/cs_test_a1B2" |}).
    reflexivity.
  - destruct (checkout_gateway_call failing_gateway _ _ _ _ Hloop)
      as (_ & _ & _ & _ & Hfail).
    apply (Hfail "Request req_123: rate limit exceeded"). reflexivity.
  - destruct (checkout_gateway_call failing_gateway _ _ _ _ Hloop)
      as (_ & _ & Hcalls & _).
    exact Hcalls.
Defined.

(** ** Checkout: the line items *)

Lemma built_fields coll cart rs :
  Forall2 (built coll) cart rs ->
  Forall2
    (fun item li =>
       exists k prod amount,
         ObjectId (product_id item) = inr k /\
         find (has_id k) coll = Some prod /\
         unit_amount_of prod = inr amount /\
         li = line_item prod item amount)
    cart (map snd rs).
Proof.
  induction 1 as [|item r cart rs [k prod amount Hk Hf Ha] _ IH];
    simpl; constructor; [|exact IH].
  now exists k, prod, amount.
Qed.




(** ** Catalog: identifiers of no stored record *)

Lemma update_one_run k upd w coll :
  db w = Some coll ->
  update_one k upd w =
  (inr (snd (update_first k upd coll)),
   {| db := Some (fst (update_first k upd coll));
      log := log w ++ [update_one_ev k upd] |}).
Proof.
  intros Hdb. unfold update_one, bind, db_product. rewrite Hdb.
  now destruct (update_first k upd coll).
Qed.

Lemma delete_one_run k w coll :
  db w = Some coll ->
  delete_one k w =
  (inr (snd (delete_first k coll)),
   {| db := Some (fst (delete_first k coll));
      log := log w ++ [delete_one_ev k] |}).
Proof.
  intros Hdb. unfold delete_one, bind, db_product. rewrite Hdb.
  now destruct (delete_first k coll).
Qed.

(** C8: for a well-formed identifier that matches no stored record, on
    a configured store, get, update and delete each raise
    [HTTPException] 404 "Product not found": get because the lookup
    finds nothing, update and delete because the store reports a count
    of zero; the stored documents are unchanged. *)
Theorem absent_id_not_found s payload w coll :
  well_formed_id s = true ->
  db w = Some coll ->
  (forall k, ObjectId s = inr k -> find (has_id k) coll = None) ->
  fst (get_product s w) = inl (HTTPException 404 "Product not found") /\
  fst (update_product s payload w)
    = inl (HTTPException 404 "Product not found") /\
  fst (delete_product s w) = inl (HTTPException 404 "Product not found") /\
  (exists k, ObjectId s = inr k /\
             snd (update_first k (model_dump payload) coll) = 0 /\
             snd (delete_first k coll) = 0) /\
  db (snd (get_product s w)) = db w /\
  db (snd (update_product s payload w)) = db w /\
  db (snd (delete_product s w)) = db w /\
  http_status (HTTPException 404 "Product not found") = 404.
Proof.
  intros Hwf Hdb Habs.
  destruct (ObjectId_well_formed s Hwf) as [k Hk].
  pose proof (Habs k Hk) as Hfind.
  assert (Hget : get_product s w =
    (inl (HTTPException 404 "Product not found"),
     add_log w [find_one_ev (Some k)])).
  { unfold get_product.
    unfold bind at 1. unfold db_product at 1. rewrite Hdb.
    unfold bind at 1. unfold lift at 1. rewrite Hk.
    unfold bind at 1. rewrite (find_one_run w coll (Some k) Hdb).
    cbn [matches]. now rewrite Hfind. }
  assert (Hupd : update_product s payload w =
    (inl (HTTPException 404 "Product not found"),
     add_log w [update_one_ev k (model_dump payload)])).
  { unfold update_product.
    unfold bind at 1. unfold db_product at 1. rewrite Hdb.
    unfold bind at 1. unfold lift at 1. rewrite Hk.
    unfold bind at 1. rewrite (update_one_run k _ w coll Hdb).
    rewrite (update_first_absent k _ coll Hfind). cbn.
    unfold add_log. now rewrite Hdb. }
  assert (Hdel : delete_product s w =
    (inl (HTTPException 404 "Product not found"),
     add_log w [delete_one_ev k])).
  { unfold delete_product.
    unfold bind at 1. unfold db_product at 1. rewrite Hdb.
    unfold bind at 1. unfold lift at 1. rewrite Hk.
    unfold bind at 1. rewrite (delete_one_run k w coll Hdb).
    rewrite (delete_first_absent k coll Hfind). cbn.
    unfold add_log. now rewrite Hdb. }
  rewrite Hget, Hupd, Hdel. cbn [fst snd add_log db].
  repeat split.
  exists k. rewrite (update_first_absent k _ coll Hfind).
  now rewrite (delete_first_absent k coll Hfind).
Qed.

Lemma absent_id_not_found_witness :
  fst (get_product absent_id w0)
    = inl (HTTPException 404 "Product not found") /\
  fst (update_product absent_id tea w0)
    = inl (HTTPException 404 "Product not found") /\
  fst (delete_product absent_id w0)
    = inl (HTTPException 404 "Product not found").
Proof.
  destruct (absent_id_not_found absent_id tea w0 sample_store
              eq_refl eq_refl) as (Hg & Hu & Hd & _).
  - intros k Hk. vm_compute in Hk. injection Hk as <-. reflexivity.
  - split; [exact Hg|]. split; [exact Hu | exact Hd].
Defined.

(** ** Checkout: missing attributes *)

Lemma unit_amount_of_no_price prod :
  a_price (fields prod) = None -> unit_amount_of prod = inr 0.
Proof. unfold unit_amount_of. now intros ->. Qed.

(** C9: an item resolving to a document without a price attribute is
    priced 0, one without a title attribute is named "Product", and in
    neither case does the request abort: with the other items resolving,
    the cart reaches the gateway with that line item in its place. *)
Theorem checkout_defaults_missing_attributes
    sdk req w coll pre item post rs1 rs2 k prod :
  db w = Some coll ->
  items req = pre ++ item :: post ->
  Forall2 (built coll) pre rs1 ->
  Forall2 (built coll) post rs2 ->
  ObjectId (product_id item) = inr k ->
  find (has_id k) coll = Some prod ->
  (a_price (fields prod) = None ->
   unit_amount_of prod = inr 0 /\
   unit_amount (price_data (line_item prod item 0)) = 0 /\
   create_checkout_session (Some sdk) req w =
     (gateway_outcome sdk
        (session_params req
           (map snd rs1 ++ line_item prod item 0 :: map snd rs2)),
      add_log w (lookups (rs1 ++ (k, line_item prod item 0) :: rs2) ++
                 [Session_create_ev
                    (session_params req
                       (map snd rs1 ++ line_item prod item 0
                          :: map snd rs2))]))) /\
  (a_title (fields prod) = None ->
   forall amount, unit_amount_of prod = inr amount ->
   name (product_data (price_data (line_item prod item amount)))
     = "Product" /\
   create_checkout_session (Some sdk) req w =
     (gateway_outcome sdk
        (session_params req
           (map snd rs1 ++ line_item prod item amount :: map snd rs2)),
      add_log w (lookups (rs1 ++ (k, line_item prod item amount) :: rs2) ++
                 [Session_create_ev
                    (session_params req
                       (map snd rs1 ++ line_item prod item amount
                          :: map snd rs2))]))).
Proof.
  intros Hdb Hitems Hpre Hpost Hk Hfind.
  assert (Hrun : forall amount, unit_amount_of prod = inr amount ->
    create_checkout_session (Some sdk) req w =
      (gateway_outcome sdk
         (session_params req
            (map snd rs1 ++ line_item prod item amount :: map snd rs2)),
       add_log w (lookups (rs1 ++ (k, line_item prod item amount) :: rs2) ++
                  [Session_create_ev
                     (session_params req
                        (map snd rs1 ++ line_item prod item amount
                           :: map snd rs2))]))).
  { intros amount Ha.
    assert (HF : Forall2 (built coll) (items req)
                   (rs1 ++ (k, line_item prod item amount) :: rs2)).
    { rewrite Hitems. apply Forall2_app; [exact Hpre|].
      constructor; [now apply (built_intro coll item k prod amount)|exact Hpost]. }
    rewrite (checkout_built sdk req w coll _ Hdb HF).
    now rewrite map_app. }
  split.
  - intros Hnone. pose proof (unit_amount_of_no_price prod Hnone) as H0.
    split; [exact H0|]. split; [reflexivity|]. now apply Hrun.
  - intros Hnone amount Ha.
    split; [cbn; now rewrite Hnone|]. now apply Hrun.
Qed.

Lemma checkout_defaults_missing_attributes_witness :
  unit_amount_of bare_doc = inr 0 /\
  create_checkout_session (Some test_gateway) (request [(bare_id, 3)]) w0 =
    (inr {| resp_url := "https://checkout.stripe.com/c/pay/cs_test_a1B2" |},
     add_log w0
       [find_one_ev (Some (key_of bare_id));
        Session_create_ev
          (session_params (request [(bare_id, 3)])
             [{| price_data :=
                   {| currency := "usd";
                      product_data :=
                        {| name := "Product";
                           pd_images := ["https://cdn.example/bare.png"] |};
                      unit_amount := 0 |};
                 li_quantity := 3 |}])]).
Proof.
  destruct (checkout_defaults_missing_attributes test_gateway
              (request [(bare_id, 3)]) w0 sample_store
              [] {| product_id := bare_id; quantity := 3 |} [] [] []
              (key_of bare_id) bare_doc
              eq_refl eq_refl (Forall2_nil _) (Forall2_nil _)
              eq_refl eq_refl) as [Hprice _].
  destruct (Hprice eq_refl) as (H0 & _ & Hrun).
  split; [exact H0 | exact Hrun].
Defined.

(** ** Checkout: stock attributes *)






(** * Further properties of the handlers *)

(** ** The identifier codec *)

Lemma hex_digit_hex_char d :
  (d < 16)%N -> hex_digit (hex_char d) = Some d.
Proof.
  intros H.
  destruct d as [|p]; [reflexivity|].
  do 4 (destruct p as [p|p|]; try reflexivity); lia.
Qed.

Lemma hex_value_hex_digits n : forall k acc a,
  hex_value (hex_digits n k acc) a
  = hex_value acc (16 ^ N.of_nat n * a + k mod 16 ^ N.of_nat n)%N.
Proof.
  induction n as [|n IH]; intros k acc a.
  - cbn [hex_digits]. f_equal. change (16 ^ N.of_nat 0)%N with 1%N.
    rewrite N.mod_1_r. lia.
  - cbn [hex_digits]. rewrite IH. cbn [hex_value].
    rewrite hex_digit_hex_char by (apply N.mod_lt; lia).
    f_equal. rewrite Nat2N.inj_succ, N.pow_succ_r'.
    rewrite (N.Div0.mod_mul_r k 16 (16 ^ N.of_nat n)). lia.
Qed.

Lemma length_hex_digits n : forall k acc,
  String.length (hex_digits n k acc) = (n + String.length acc)%nat.
Proof.
  induction n as [|n IH]; intros k acc; cbn [hex_digits]; [reflexivity|].
  rewrite IH. simpl. lia.
Qed.

(** Printing a 12-byte key and reading it back gives the key. *)
Lemma ObjectId_str_ObjectId k :
  (k < 16 ^ 24)%N -> ObjectId (str_ObjectId k) = inr k.
Proof.
  intros Hk.
  assert (Hv : hex_value (str_ObjectId k) 0 = Some k).
  { unfold str_ObjectId. rewrite hex_value_hex_digits. cbn [hex_value].
    change (N.of_nat 24) with 24%N.
    now rewrite N.mul_0_r, N.add_0_l, N.mod_small by exact Hk. }
  assert (Hwf : well_formed_id (str_ObjectId k) = true).
  { unfold well_formed_id. apply andb_true_iff. split.
    - unfold str_ObjectId. now rewrite length_hex_digits.
    - destruct (all_hex (str_ObjectId k)) eqn:Hh; [reflexivity|].
      apply (hex_value_all_hex _ 0%N) in Hh. congruence. }
  destruct (ObjectId_hex _ Hwf) as (k' & Hv' & Hk'). congruence.
Qed.

(** ** Lists of documents *)

Lemma has_id_true k d : has_id k d = true -> _id d = k.
Proof.
  unfold has_id. intros H. apply andb_true_iff in H as [_ H].
  now apply N.eqb_eq.
Qed.

Lemma has_id_bound k d : has_id k d = true -> (k < 16 ^ 24)%N.
Proof.
  unfold has_id. intros H. apply andb_true_iff in H as [H _].
  now apply N.ltb_lt.
Qed.

Lemma find_has_id k coll d :
  find (has_id k) coll = Some d -> _id d = k /\ In d coll.
Proof.
  intros H. split.
  - apply has_id_true. exact (proj2 (find_some _ _ H)).
  - exact (proj1 (find_some _ _ H)).
Qed.

(** A key that finds a document is a 12-byte key. *)
Lemma find_has_id_bound k coll d :
  find (has_id k) coll = Some d -> (k < 16 ^ 24)%N.
Proof.
  intros H. exact (has_id_bound k d (proj2 (find_some _ _ H))).
Qed.

Lemma update_first_keys k upd coll :
  map _id (fst (update_first k upd coll)) = map _id coll.
Proof.
  induction coll as [|d coll IH]; cbn [update_first]; [reflexivity|].
  destruct (has_id k d); [reflexivity|].
  destruct (update_first k upd coll) as [rest n]. cbn in *. now rewrite IH.
Qed.

Lemma update_first_found k upd coll d :
  find (has_id k) coll = Some d ->
  snd (update_first k upd coll) = 1 /\
  find (has_id k) (fst (update_first k upd coll))
    = Some {| _id := _id d; fields := set_attrs upd (fields d) |}.
Proof.
  induction coll as [|x coll IH]; cbn [find update_first]; [discriminate|].
  destruct (has_id k x) eqn:Hx.
  - intros H. injection H as <-. cbn [fst snd find].
    change (has_id k {| _id := _id x; fields := set_attrs upd (fields x) |})
      with (has_id k x).
    now rewrite Hx.
  - intros H. destruct (IH H) as [Hn Hf].
    destruct (update_first k upd coll) as [rest n]. cbn [fst snd find] in *.
    now rewrite Hx.
Qed.

Lemma update_first_others k k' upd coll :
  k' <> k ->
  find (has_id k') (fst (update_first k upd coll)) = find (has_id k') coll.
Proof.
  intros Hne.
  induction coll as [|x coll IH]; cbn [find update_first]; [reflexivity|].
  destruct (has_id k x) eqn:Hx.
  - cbn [fst find].
    change (has_id k' {| _id := _id x; fields := set_attrs upd (fields x) |})
      with (has_id k' x).
    apply has_id_true in Hx.
    destruct (has_id k' x) eqn:Hx'; [|reflexivity].
    apply has_id_true in Hx'. congruence.
  - destruct (update_first k upd coll) as [rest n]. cbn [fst find] in *.
    now rewrite IH.
Qed.

Lemma delete_first_found k coll d :
  find (has_id k) coll = Some d ->
  snd (delete_first k coll) = 1 /\
  S (List.length (fst (delete_first k coll))) = List.length coll.
Proof.
  induction coll as [|x coll IH]; cbn [find delete_first]; [discriminate|].
  destruct (has_id k x) eqn:Hx; [now intros _|].
  intros H. destruct (IH H) as [Hn Hl].
  destruct (delete_first k coll) as [rest n]. cbn [fst snd List.length] in *.
  now rewrite Hl.
Qed.

Lemma delete_first_others k k' coll :
  k' <> k ->
  find (has_id k') (fst (delete_first k coll)) = find (has_id k') coll.
Proof.
  intros Hne.
  induction coll as [|x coll IH]; cbn [find delete_first]; [reflexivity|].
  destruct (has_id k x) eqn:Hx.
  - cbn [fst]. apply has_id_true in Hx.
    destruct (has_id k' x) eqn:Hx'; [|reflexivity].
    apply has_id_true in Hx'. congruence.
  - destruct (delete_first k coll) as [rest n]. cbn [fst find] in *.
    now rewrite IH.
Qed.

Lemma delete_first_incl k coll x :
  In x (map _id (fst (delete_first k coll))) -> In x (map _id coll).
Proof.
  induction coll as [|d coll IH]; cbn [delete_first]; [auto|].
  destruct (has_id k d); cbn [fst map]; [now right|].
  destruct (delete_first k coll) as [rest n]. cbn [fst map] in *.
  intros [H|H]; [now left | right; auto].
Qed.

Lemma delete_first_NoDup k coll :
  NoDup (map _id coll) -> NoDup (map _id (fst (delete_first k coll))).
Proof.
  induction coll as [|d coll IH]; cbn [delete_first map]; [auto|].
  intros H. inversion H as [|? ? Hnin Hnd]; subst.
  destruct (has_id k d); cbn [fst]; [exact Hnd|].
  pose proof (delete_first_incl k coll (_id d)) as Hincl.
  destruct (delete_first k coll) as [rest n]. cbn [fst map] in *.
  constructor; [intros Hin; apply Hnin; auto | auto].
Qed.

Lemma delete_first_gone k coll :
  NoDup (map _id coll) ->
  find (has_id k) (fst (delete_first k coll)) = None.
Proof.
  induction coll as [|d coll IH]; cbn [delete_first map]; [reflexivity|].
  intros H. inversion H as [|? ? Hnin Hnd]; subst.
  destruct (has_id k d) eqn:Hd; cbn [fst].
  - apply has_id_true in Hd.
    destruct (find (has_id k) coll) as [x|] eqn:Hf; [|reflexivity].
    apply find_has_id in Hf as [Hx Hin].
    exfalso. apply Hnin. rewrite Hd, <- Hx. now apply in_map.
  - specialize (IH Hnd).
    destruct (delete_first k coll) as [rest n]. cbn [fst find] in *.
    now rewrite Hd.
Qed.

Lemma fresh_id_above coll x :
  In x (map _id coll) -> (x < fresh_id coll)%N.
Proof.
  unfold fresh_id. induction coll as [|d coll IH]; cbn [map fold_right];
    [contradiction|].
  intros [<-|H]; [lia|]. specialize (IH H). lia.
Qed.

(** ** Running the catalog handlers *)

Lemma get_product_run s w coll k :
  db w = Some coll ->
  ObjectId s = inr k ->
  get_product s w =
  (match find (has_id k) coll with
   | None => inl (HTTPException 404 "Product not found")
   | Some d => as_product d
   end,
   add_log w [find_one_ev (Some k)]).
Proof.
  intros Hdb Hk. unfold get_product.
  unfold bind at 1. unfold db_product at 1. rewrite Hdb.
  unfold bind at 1. unfold lift at 1. rewrite Hk.
  unfold bind at 1. rewrite (find_one_run w coll (Some k) Hdb).
  cbn [matches]. now destruct (find (has_id k) coll).
Qed.

Lemma update_product_run s payload w coll k :
  db w = Some coll ->
  ObjectId s = inr k ->
  update_product s payload w =
  (if snd (update_first k (model_dump payload) coll) =? 0
   then inl (HTTPException 404 "Product not found")
   else Product_of
          (serialize_doc
             (find (has_id k)
                (fst (update_first k (model_dump payload) coll)))),
   {| db := Some (fst (update_first k (model_dump payload) coll));
      log := log w ++
             update_one_ev k (model_dump payload) ::
             (if snd (update_first k (model_dump payload) coll) =? 0
              then [] else [find_one_ev (Some k)]) |}).
Proof.
  intros Hdb Hk. unfold update_product.
  unfold bind at 1. unfold db_product at 1. rewrite Hdb.
  unfold bind at 1. unfold lift at 1. rewrite Hk.
  unfold bind at 1. rewrite (update_one_run k _ w coll Hdb).
  destruct (snd (update_first k (model_dump payload) coll) =? 0);
    [reflexivity|].
  unfold bind at 1. unfold db_product at 1. cbn [db].
  unfold bind at 1. unfold lift at 1.
  unfold bind at 1.
  rewrite (find_one_run
             {| db := Some (fst (update_first k (model_dump payload) coll));
                log := log w ++ [update_one_ev k (model_dump payload)] |}
             (fst (update_first k (model_dump payload) coll))
             (Some k) eq_refl).
  cbn [matches]. unfold lift, add_log. cbn [db log].
  now rewrite <- app_assoc.
Qed.

Lemma delete_product_run s w coll k :
  db w = Some coll ->
  ObjectId s = inr k ->
  delete_product s w =
  (if snd (delete_first k coll) =? 0
   then inl (HTTPException 404 "Product not found")
   else inr true,
   {| db := Some (fst (delete_first k coll));
      log := log w ++ [delete_one_ev k] |}).
Proof.
  intros Hdb Hk. unfold delete_product.
  unfold bind at 1. unfold db_product at 1. rewrite Hdb.
  unfold bind at 1. unfold lift at 1. rewrite Hk.
  unfold bind at 1. rewrite (delete_one_run k w coll Hdb).
  now destruct (snd (delete_first k coll) =? 0).
Qed.

Lemma get_product_on s coll l k :
  ObjectId s = inr k ->
  get_product s {| db := Some coll; log := l |} =
  (match find (has_id k) coll with
   | None => inl (HTTPException 404 "Product not found")
   | Some d => as_product d
   end,
   {| db := Some coll; log := l ++ [find_one_ev (Some k)] |}).
Proof.
  intros Hk.
  now apply (get_product_run s {| db := Some coll; log := l |} coll k).
Qed.

Lemma delete_product_on s coll l k :
  ObjectId s = inr k ->
  delete_product s {| db := Some coll; log := l |} =
  (if snd (delete_first k coll) =? 0
   then inl (HTTPException 404 "Product not found")
   else inr true,
   {| db := Some (fst (delete_first k coll));
      log := l ++ [delete_one_ev k] |}).
Proof.
  intros Hk.
  now apply (delete_product_run s {| db := Some coll; log := l |} coll k).
Qed.

Lemma Product_of_model_dump i p :
  valid_ProductIn p = true ->
  Product_of (Some (i, model_dump p)) = inr {| base := p; id := i |}.
Proof.
  unfold valid_ProductIn. intros H. apply andb_true_iff in H as [Hp Hc].
  destruct p as [t de pr c ca ins st im tg]. cbn in *.
  rewrite Hp. cbn. destruct c as [x|]; [now rewrite Hc | reflexivity].
Qed.

Lemma as_product_id d p : as_product d = inr p -> id p = str_ObjectId (_id d).
Proof.
  unfold as_product, serialize_doc, Product_of.
  destruct (a_title (fields d)); [|discriminate].
  destruct (a_price (fields d)) as [pr|]; [|discriminate].
  destruct (negb (PyFloat.ge0 pr)); [discriminate|].
  destruct (match get (a_compare_at_price (fields d)) None with
            | Some x => negb (PyFloat.ge0 x) | None => false end);
    [discriminate|].
  now intros [= <-].
Qed.

(** ** Catalog: reading a stored product *)

(** A stored document with a title, a price that is [>= 0] and a
    compare-at price that is absent, [None] or [>= 0] is read back with
    its attributes, the schema's defaults standing in for absent
    optional ones, and the printed key as identifier; the lookup is the
    only store call and nothing is written. *)
Theorem get_product_found s w coll k d t p :
  db w = Some coll ->
  ObjectId s = inr k ->
  find (has_id k) coll = Some d ->
  a_title (fields d) = Some t ->
  a_price (fields d) = Some p ->
  PyFloat.ge0 p = true ->
  match a_compare_at_price (fields d) with
  | Some (Some c) => PyFloat.ge0 c = true
  | _ => True
  end ->
  get_product s w =
  (inr {| base :=
            {| title := t;
               description := match a_description (fields d) with
                              | Some v => v
                              | None => None
                              end;
               price := p;
               compare_at_price := match a_compare_at_price (fields d) with
                                   | Some v => v
                                   | None => None
                                   end;
               category := match a_category (fields d) with
                           | Some v => v
                           | None => "Tea"
                           end;
               in_stock := match a_in_stock (fields d) with
                           | Some v => v
                           | None => true
                           end;
               stock := match a_stock (fields d) with
                        | Some v => v
                        | None => 100
                        end;
               images := match a_images (fields d) with
                         | Some v => v
                         | None => []
                         end;
               tags := match a_tags (fields d) with
                       | Some v => v
                       | None => []
                       end |};
          id := str_ObjectId k |},
   add_log w [find_one_ev (Some k)]).
Proof.
  intros Hdb Hk Hfind Ht Hp Hge Hc.
  rewrite (get_product_run s w coll k Hdb Hk), Hfind.
  destruct (find_has_id k coll d Hfind) as [Hid _].
  unfold as_product, serialize_doc, Product_of, get.
  rewrite Ht, Hp, Hge, Hid. cbn [negb].
  destruct (a_compare_at_price (fields d)) as [[c|]|];
    [now rewrite Hc | reflexivity | reflexivity].
Qed.

Lemma get_product_found_witness :
  get_product herbal_id w_herbal =
  (inr {| base := {| title := "Mint"; description := None;
                     price := PyFloat.lit 5;
                     compare_at_price := Some (PyFloat.lit 6);
                     category := "Herbal"; in_stock := true; stock := 7;
                     images := ["https://cdn.example/mint.png"];
                     tags := [] |};
          id := "64b7f3a2c1d4e5f6a7b8c9d5" |},
   add_log w_herbal [find_one_ev (Some (key_of herbal_id))]).
Proof.
  exact (get_product_found herbal_id w_herbal [tea_doc; herbal_doc]
           (key_of herbal_id) herbal_doc "Mint" (PyFloat.lit 5)
           eq_refl eq_refl eq_refl eq_refl eq_refl eq_refl eq_refl).
Defined.

(** A stored document without a title or without a price, or whose
    price is negative or not a number, cannot be read: the handler finds
    it and then fails validating its own answer, which the caller sees
    as a 500 and not as a 404. *)
Theorem get_product_invalid_document s w coll k d :
  db w = Some coll ->
  ObjectId s = inr k ->
  find (has_id k) coll = Some d ->
  a_title (fields d) = None \/ a_price (fields d) = None \/
  (exists p, a_price (fields d) = Some p /\ PyFloat.ge0 p = false) ->
  exists field,
    get_product s w =
      (inl (ValidationError field), add_log w [find_one_ev (Some k)]) /\
    http_status (ValidationError field) = 500.
Proof.
  intros Hdb Hk Hfind Hbad.
  rewrite (get_product_run s w coll k Hdb Hk), Hfind.
  unfold as_product, serialize_doc, Product_of.
  destruct Hbad as [Ht | [Hp | (p & Hp & Hneg)]].
  - rewrite Ht. now exists "title".
  - rewrite Hp. exists (match a_title (fields d) with
                       | Some _ => "price" | None => "title" end).
    now destruct (a_title (fields d)).
  - rewrite Hp, Hneg. cbn [negb].
    exists (match a_title (fields d) with
                       | Some _ => "price" | None => "title" end).
    now destruct (a_title (fields d)).
Qed.

Lemma get_product_invalid_document_witness :
  get_product bare_id w0 =
    (inl (ValidationError "title"),
     add_log w0 [find_one_ev (Some (key_of bare_id))]).
Proof.
  destruct (get_product_invalid_document bare_id w0 sample_store
              (key_of bare_id) bare_doc eq_refl eq_refl eq_refl
              (or_introl eq_refl)) as (field & Hrun & _).
  rewrite Hrun. vm_compute in Hrun. now injection Hrun as ->.
Defined.

(** ** Catalog: update *)

(** Updating a stored product with a payload that meets the schema
    answers with exactly that payload under the printed key; every
    attribute of the target document is replaced, its key is kept, the
    keys of the collection and every other document are left as they
    were. *)
Theorem update_product_returns_payload s payload w coll k d :
  db w = Some coll ->
  ObjectId s = inr k ->
  find (has_id k) coll = Some d ->
  valid_ProductIn payload = true ->
  update_product s payload w =
    (inr {| base := payload; id := str_ObjectId k |},
     {| db := Some (fst (update_first k (model_dump payload) coll));
        log := log w ++ [update_one_ev k (model_dump payload);
                         find_one_ev (Some k)] |}) /\
  find (has_id k) (fst (update_first k (model_dump payload) coll))
    = Some {| _id := k; fields := model_dump payload |} /\
  map _id (fst (update_first k (model_dump payload) coll)) = map _id coll /\
  (forall k', k' <> k ->
     find (has_id k') (fst (update_first k (model_dump payload) coll))
     = find (has_id k') coll).
Proof.
  intros Hdb Hk Hfind Hvalid.
  destruct (update_first_found k (model_dump payload) coll d Hfind)
    as [Hn Hf].
  destruct (find_has_id k coll d Hfind) as [Hid _].
  change (set_attrs (model_dump payload) (fields d))
    with (model_dump payload) in Hf.
  rewrite Hid in Hf.
  split; [|split; [exact Hf | split]].
  - rewrite (update_product_run s payload w coll k Hdb Hk), Hn, Hf.
    cbn [Z.eqb serialize_doc _id fields].
    now rewrite (Product_of_model_dump _ _ Hvalid).
  - apply update_first_keys.
  - intros k' Hne. now apply update_first_others.
Qed.

Lemma update_product_returns_payload_witness :
  fst (update_product chai_id tea w0)
    = inr {| base := tea; id := chai_id |} /\
  db (snd (update_product chai_id tea w0))
    = Some [tea_doc; {| _id := key_of chai_id; fields := model_dump tea |};
            bare_doc].
Proof.
  destruct (update_product_returns_payload chai_id tea w0 sample_store
              (key_of chai_id) chai_doc eq_refl eq_refl eq_refl eq_refl)
    as (Hrun & _).
  rewrite Hrun. split; reflexivity.
Defined.

(** The identifier an update answers with is accepted by [get], which
    then answers with the same product: what was written is what is
    read. *)
Theorem update_then_get s payload w coll k d :
  db w = Some coll ->
  ObjectId s = inr k ->
  find (has_id k) coll = Some d ->
  valid_ProductIn payload = true ->
  exists updated,
    fst (update_product s payload w) = inr updated /\
    base updated = payload /\
    fst (get_product (id updated) (snd (update_product s payload w)))
      = inr updated /\
    fst (get_product s (snd (update_product s payload w))) = inr updated.
Proof.
  intros Hdb Hk Hfind Hvalid.
  destruct (update_first_found k (model_dump payload) coll d Hfind)
    as [Hn Hf].
  destruct (find_has_id k coll d Hfind) as [Hid _].
  change (set_attrs (model_dump payload) (fields d))
    with (model_dump payload) in Hf.
  rewrite Hid in Hf.
  exists {| base := payload; id := str_ObjectId k |}.
  assert (Hrun : update_product s payload w =
    (inr {| base := payload; id := str_ObjectId k |},
     {| db := Some (fst (update_first k (model_dump payload) coll));
        log := log w ++ [update_one_ev k (model_dump payload);
                         find_one_ev (Some k)] |})).
  { rewrite (update_product_run s payload w coll k Hdb Hk), Hn, Hf.
    cbn [Z.eqb serialize_doc _id fields].
    now rewrite (Product_of_model_dump _ _ Hvalid). }
  rewrite Hrun. cbn [fst snd base id].
  split; [reflexivity|]. split; [reflexivity|].
  assert (Hread : forall s', ObjectId s' = inr k ->
    fst (get_product s'
           {| db := Some (fst (update_first k (model_dump payload) coll));
              log := log w ++ [update_one_ev k (model_dump payload);
                               find_one_ev (Some k)] |})
    = inr {| base := payload; id := str_ObjectId k |}).
  { intros s' Hs'.
    rewrite (get_product_on s' _ _ k Hs'), Hf. cbn [fst].
    unfold as_product. cbn [serialize_doc _id fields].
    now apply Product_of_model_dump. }
  split; [|now apply Hread].
  apply Hread, ObjectId_str_ObjectId, (find_has_id_bound k coll d Hfind).
Qed.

Lemma update_then_get_witness :
  exists updated,
    fst (update_product bare_id chai w0) = inr updated /\
    base updated = chai /\
    fst (get_product (id updated) (snd (update_product bare_id chai w0)))
      = inr updated /\
    fst (get_product bare_id (snd (update_product bare_id chai w0)))
      = inr updated.
Proof.
  exact (update_then_get bare_id chai w0 sample_store (key_of bare_id)
           bare_doc eq_refl eq_refl eq_refl eq_refl).
Defined.

(** ** Catalog: delete *)

(** Deleting a stored product answers success and removes one document,
    the one with that key; with keys unique, the identifier then names
    nothing: [get] and a second [delete] answer 404.  Other documents
    are still found. *)
Theorem delete_product_removes s w coll k d :
  db w = Some coll ->
  ObjectId s = inr k ->
  find (has_id k) coll = Some d ->
  NoDup (map _id coll) ->
  delete_product s w =
    (inr true,
     {| db := Some (fst (delete_first k coll));
        log := log w ++ [delete_one_ev k] |}) /\
  S (List.length (fst (delete_first k coll))) = List.length coll /\
  fst (get_product s (snd (delete_product s w)))
    = inl (HTTPException 404 "Product not found") /\
  fst (delete_product s (snd (delete_product s w)))
    = inl (HTTPException 404 "Product not found") /\
  (forall k', k' <> k ->
     find (has_id k') (fst (delete_first k coll)) = find (has_id k') coll).
Proof.
  intros Hdb Hk Hfind Hnd.
  destruct (delete_first_found k coll d Hfind) as [Hn Hlen].
  pose proof (delete_first_gone k coll Hnd) as Hgone.
  assert (Hrun : delete_product s w =
    (inr true,
     {| db := Some (fst (delete_first k coll));
        log := log w ++ [delete_one_ev k] |})).
  { now rewrite (delete_product_run s w coll k Hdb Hk), Hn. }
  rewrite Hrun. cbn [snd].
  split; [reflexivity|]. split; [exact Hlen|]. split; [|split].
  - now rewrite (get_product_on s _ _ k Hk), Hgone.
  - rewrite (delete_product_on s _ _ k Hk).
    now rewrite (delete_first_absent k _ Hgone).
  - intros k' Hne. now apply delete_first_others.
Qed.

Lemma delete_product_removes_witness :
  delete_product chai_id w0 =
    (inr true,
     {| db := Some [tea_doc; bare_doc];
        log := [delete_one_ev (key_of chai_id)] |}) /\
  fst (get_product chai_id (snd (delete_product chai_id w0)))
    = inl (HTTPException 404 "Product not found").
Proof.
  destruct (delete_product_removes chai_id w0 sample_store
              (key_of chai_id) chai_doc eq_refl eq_refl eq_refl)
    as (Hrun & _ & Hget & _).
  - repeat constructor; vm_compute; intuition discriminate.
  - split; [exact Hrun | exact Hget].
Defined.

(** ** What the handlers keep *)

Lemma keeps_bind {A B} (P : world -> Prop) (m : M A) (f : A -> M B) :
  keeps P m -> (forall a, keeps P (f a)) -> keeps P (bind m f).
Proof.
  intros Hm Hf w HP. unfold bind. specialize (Hm w HP).
  destruct (m w) as [[e|a] w']; cbn [snd] in *; [exact Hm|].
  now apply Hf.
Qed.

Lemma keeps_ret {A} P (a : A) : keeps P (ret a).
Proof. now intros w HP. Qed.

Lemma keeps_raise {A} P e : keeps P (@raise A e).
Proof. now intros w HP. Qed.

Lemma keeps_lift {A} P (r : exn + A) : keeps P (lift r).
Proof. now intros w HP. Qed.

Lemma keeps_db_product P : keeps P db_product.
Proof. intros w HP. unfold db_product. now destruct (db w). Qed.

Lemma keeps_db_is_None P : keeps P db_is_None.
Proof. now intros w HP. Qed.

Lemma keeps_try_except {A} P (m : M A) h :
  keeps P m -> (forall e, keeps P (h e)) -> keeps P (try_except m h).
Proof.
  intros Hm Hh w HP. unfold try_except. specialize (Hm w HP).
  destruct (m w) as [[e|a] w']; cbn [snd] in *; [now apply Hh | exact Hm].
Qed.

(** Handlers that only read keep every property of the world that does
    not look at the trace. *)
Section ReadOnly.

Variable P : world -> Prop.
Hypothesis P_trace : forall w evs, P w -> P (add_log w evs).

Lemma keeps_emit ev : keeps P (emit ev).
Proof. intros w HP. apply (P_trace w [ev] HP). Qed.

Lemma keeps_find_one filter : keeps P (find_one filter).
Proof.
  unfold find_one. apply keeps_bind; [apply keeps_db_product|].
  intros coll. apply keeps_bind; [apply keeps_emit|].
  intros _. apply keeps_ret.
Qed.

Lemma keeps_db_command cmd : keeps P (db_command cmd).
Proof.
  unfold db_command. apply keeps_bind; [apply keeps_db_product|].
  intros _. apply keeps_emit.
Qed.

Lemma keeps_get_documents : keeps P get_documents.
Proof.
  intros w HP. unfold get_documents.
  destruct (db w) as [coll|] eqn:Hdb; [|exact HP].
  cbn [snd]. rewrite <- Hdb. apply (P_trace w [command_ev "find"] HP).
Qed.

Lemma keeps_build_line_items cart : forall acc,
  keeps P (build_line_items cart acc).
Proof.
  induction cart as [|item rest IH]; intros acc; cbn [build_line_items].
  - apply keeps_ret.
  - apply keeps_bind; [apply keeps_db_product|]. intros _.
    apply keeps_bind; [apply keeps_lift|]. intros k.
    apply keeps_bind; [apply keeps_find_one|]. intros [prod|].
    + apply keeps_bind; [apply keeps_lift|]. intros amount. apply IH.
    + apply keeps_raise.
Qed.

Lemma keeps_get_product s : keeps P (get_product s).
Proof.
  unfold get_product.
  apply keeps_bind; [apply keeps_db_product|]. intros _.
  apply keeps_bind; [apply keeps_lift|]. intros k.
  apply keeps_bind; [apply keeps_find_one|]. intros [d|].
  - apply keeps_lift.
  - apply keeps_raise.
Qed.

Lemma keeps_list_products : keeps P list_products.
Proof.
  unfold list_products. apply keeps_bind; [apply keeps_get_documents|].
  intros docs. apply keeps_lift.
Qed.

Lemma keeps_create_checkout_session stripe req :
  keeps P (create_checkout_session stripe req).
Proof.
  unfold create_checkout_session. destruct stripe as [sdk|].
  - apply keeps_bind; [apply keeps_build_line_items|].
    intros lines w HP. unfold Session_create.
    destruct (sdk (session_params req lines)); cbn [snd];
      apply (P_trace w _ HP).
  - apply keeps_raise.
Qed.

End ReadOnly.

Lemma keys_unique_trace w evs : keys_unique w -> keys_unique (add_log w evs).
Proof. now unfold keys_unique, add_log. Qed.

Lemma same_store_trace w0 w evs :
  same_store w0 w -> same_store w0 (add_log w evs).
Proof. now unfold same_store, add_log. Qed.

Lemma keeps_update_one k upd : keeps keys_unique (update_one k upd).
Proof.
  intros w HP. unfold update_one, bind, db_product.
  destruct (db w) as [coll|] eqn:Hdb; [|exact HP].
  unfold keys_unique in HP. rewrite Hdb in HP.
  pose proof (update_first_keys k upd coll) as Hkeys.
  destruct (update_first k upd coll) as [coll' n]. cbn [fst] in Hkeys.
  unfold keys_unique. cbn [snd db]. now rewrite Hkeys.
Qed.

Lemma keeps_delete_one k : keeps keys_unique (delete_one k).
Proof.
  intros w HP. unfold delete_one, bind, db_product.
  destruct (db w) as [coll|] eqn:Hdb; [|exact HP].
  unfold keys_unique in HP. rewrite Hdb in HP.
  pose proof (delete_first_NoDup k coll HP) as Hnd.
  destruct (delete_first k coll) as [coll' n]. cbn [fst] in Hnd.
  unfold keys_unique. now cbn [snd db].
Qed.

Lemma keeps_create_document data : keeps keys_unique (create_document data).
Proof.
  intros w HP. unfold create_document.
  destruct (db w) as [coll|] eqn:Hdb; [|exact HP].
  unfold keys_unique in HP. rewrite Hdb in HP.
  unfold keys_unique. cbn [snd db _id]. rewrite map_app. cbn [map _id].
  apply NoDup_app; [exact HP | repeat constructor; intros [] |].
  intros x Hin [<-|[]]. pose proof (fresh_id_above coll _ Hin). lia.
Qed.

(** Key uniqueness is an invariant of the API: no handler, whatever its
    arguments and whatever it answers, leaves two stored documents with
    the same key. *)
Theorem handlers_keep_keys_unique w :
  keys_unique w ->
  (forall payload, keys_unique (snd (create_product payload w))) /\
  (forall s, keys_unique (snd (get_product s w))) /\
  (forall s payload, keys_unique (snd (update_product s payload w))) /\
  (forall s, keys_unique (snd (delete_product s w))) /\
  keys_unique (snd (list_products w)) /\
  (forall stripe req,
     keys_unique (snd (create_checkout_session stripe req w))).
Proof.
  intros HP. repeat split; intros.
  - revert w HP. change (keeps keys_unique (create_product payload)).
    unfold create_product.
    apply keeps_bind; [apply keeps_db_is_None|]. intros [|];
      [apply keeps_raise|].
    apply keeps_bind; [apply keeps_create_document|]. intros new_id.
    apply keeps_bind.
    { apply keeps_bind; [apply keeps_db_product|]. intros _.
      apply keeps_bind; [|intros k; apply keeps_find_one, keys_unique_trace].
      unfold localTime_from_json.
      apply keeps_bind; [apply keeps_db_command, keys_unique_trace|].
      intros _. destruct (nth_error (mro datetime_datetime) 1) as [c|];
        [|apply keeps_raise].
      destruct (hasattr c "from_json"); [apply keeps_lift|apply keeps_raise]. }
    intros _. apply keeps_bind; [|intros saved; apply keeps_lift].
    apply keeps_try_except.
    + apply keeps_bind; [apply keeps_db_product|]. intros _.
      apply keeps_bind; [apply keeps_lift|]. intros k.
      apply keeps_find_one, keys_unique_trace.
    + intros _. apply keeps_find_one, keys_unique_trace.
  - now apply keeps_get_product; [apply keys_unique_trace|].
  - revert w HP. change (keeps keys_unique (update_product s payload)).
    unfold update_product.
    apply keeps_bind; [apply keeps_db_product|]. intros _.
    apply keeps_bind; [apply keeps_lift|]. intros k.
    apply keeps_bind; [apply keeps_update_one|]. intros n.
    destruct (n =? 0); [apply keeps_raise|].
    apply keeps_bind; [apply keeps_db_product|]. intros _.
    apply keeps_bind; [apply keeps_lift|]. intros k'.
    apply keeps_bind; [apply keeps_find_one, keys_unique_trace|].
    intros doc. apply keeps_lift.
  - revert w HP. change (keeps keys_unique (delete_product s)).
    unfold delete_product.
    apply keeps_bind; [apply keeps_db_product|]. intros _.
    apply keeps_bind; [apply keeps_lift|]. intros k.
    apply keeps_bind; [apply keeps_delete_one|]. intros n.
    destruct (n =? 0); [apply keeps_raise | apply keeps_ret].
  - now apply keeps_list_products; [apply keys_unique_trace|].
  - now apply keeps_create_checkout_session; [apply keys_unique_trace|].
Qed.

Lemma handlers_keep_keys_unique_witness :
  keys_unique (snd (create_product tea w0)) /\
  keys_unique (snd (delete_product tea_id w0)).
Proof.
  assert (H0 : keys_unique w0)
    by (repeat constructor; vm_compute; intuition discriminate).
  destruct (handlers_keep_keys_unique w0 H0) as (Hc & _ & _ & Hd & _).
  split; [apply Hc | apply Hd].
Defined.

(** [get], the listing and checkout never write to the store: whatever
    the arguments and the answer, the stored documents are afterwards
    what they were. *)
Theorem readers_leave_store_unchanged w :
  (forall s, db (snd (get_product s w)) = db w) /\
  db (snd (list_products w)) = db w /\
  (forall stripe req,
     db (snd (create_checkout_session stripe req w)) = db w).
Proof.
  repeat split; intros.
  - apply (keeps_get_product (same_store w) (same_store_trace w) s w).
    reflexivity.
  - apply (keeps_list_products (same_store w) (same_store_trace w) w).
    reflexivity.
  - apply (keeps_create_checkout_session (same_store w)
             (same_store_trace w) stripe req w).
    reflexivity.
Qed.

(** ** Checkout: all or nothing *)

Lemma build_line_items_shape cart : forall acc w r w',
  build_line_items cart acc w = (r, w') ->
  exists evs,
    w' = add_log w evs /\
    Forall is_lookup evs /\
    (List.length evs <= List.length cart)%nat /\
    forall lines, r = inr lines ->
      List.length lines = (List.length acc + List.length cart)%nat /\
      List.length evs = List.length cart.
Proof.
  induction cart as [|item rest IH]; intros acc w r w' H.
  - injection H as <- <-. exists []. rewrite add_log_nil.
    split; [reflexivity|]. split; [constructor|]. split; [cbn; lia|].
    intros lines [= <-]. cbn. split; lia.
  - cbn [build_line_items] in H.
    unfold bind at 1 in H. unfold db_product at 1 in H.
    destruct (db w) as [coll|] eqn:Hdb.
    2:{ injection H as <- <-. exists []. rewrite add_log_nil.
        split; [reflexivity|]. split; [constructor|]. split; [cbn; lia|].
        intros lines Hl. discriminate Hl. }
    unfold bind at 1 in H. unfold lift at 1 in H.
    destruct (ObjectId (product_id item)) as [e|k].
    { injection H as <- <-. exists []. rewrite add_log_nil.
      split; [reflexivity|]. split; [constructor|]. split; [cbn; lia|].
      intros lines Hl. discriminate Hl. }
    unfold bind at 1 in H. rewrite (find_one_run w coll (Some k) Hdb) in H.
    assert (Hl : Forall is_lookup [find_one_ev (Some k)])
      by (repeat constructor; now exists k).
    destruct (find (matches (Some k)) coll) as [prod|].
    2:{ injection H as <- <-. exists [find_one_ev (Some k)].
        split; [reflexivity|]. split; [exact Hl|]. split; [cbn; lia|].
        intros lines Hx. discriminate Hx. }
    unfold bind at 1 in H. unfold lift at 1 in H.
    destruct (unit_amount_of prod) as [e|amount].
    { injection H as <- <-. exists [find_one_ev (Some k)].
      split; [reflexivity|]. split; [exact Hl|]. split; [cbn; lia|].
      intros lines Hx. discriminate Hx. }
    destruct (IH _ _ _ _ H) as (evs & Hs & Hf & Hle & Hok).
    exists (find_one_ev (Some k) :: evs). rewrite Hs, add_log_app.
    split; [reflexivity|]. split; [constructor; [now exists k | exact Hf]|].
    split; [cbn; lia|].
    intros lines Hlines. destruct (Hok lines Hlines) as [H1 H2].
    rewrite length_app in H1. cbn in *. lia.
Qed.

(** Whatever the request, the store and the gateway, a create-session
    call reads the store at most once per cart item and never writes to
    it, and it either fails without having called the gateway, or has
    called it exactly once, with one line item per cart item, after
    looking every item up. *)
Theorem checkout_all_or_nothing stripe req w :
  exists evs,
    Forall is_lookup evs /\
    (List.length evs <= List.length (items req))%nat /\
    ((exists e,
        create_checkout_session stripe req w = (inl e, add_log w evs)) \/
     (exists sdk lines,
        stripe = Some sdk /\
        List.length lines = List.length (items req) /\
        List.length evs = List.length (items req) /\
        create_checkout_session stripe req w =
          (gateway_outcome sdk (session_params req lines),
           add_log w (evs ++
                      [Session_create_ev (session_params req lines)])))).
Proof.
  destruct stripe as [sdk|].
  - destruct (build_line_items (items req) [] w) as [r w'] eqn:Hrun.
    destruct (build_line_items_shape (items req) [] w r w' Hrun)
      as (evs & Hs & Hf & Hle & Hok).
    exists evs. split; [exact Hf|]. split; [exact Hle|].
    subst w'. destruct r as [e|lines].
    + left. exists e. unfold create_checkout_session, bind.
      now rewrite Hrun.
    + right. exists sdk, lines. destruct (Hok lines eq_refl) as [H1 H2].
      split; [reflexivity|]. split; [exact H1|]. split; [exact H2|].
      rewrite (checkout_after_loop sdk req w lines _ Hrun).
      now rewrite add_log_app.
  - exists []. split; [constructor|]. split; [cbn; lia|].
    left. exists not_configured. now rewrite add_log_nil.
Qed.

(** An empty cart is not refused: with a gateway configured the session
    is requested with no line item at all, without any store call, even
    when no store is configured. *)
Theorem checkout_empty_cart sdk req w :
  items req = [] ->
  create_checkout_session (Some sdk) req w =
    (gateway_outcome sdk (session_params req []),
     add_log w [Session_create_ev (session_params req [])]).
Proof.
  intros Hempty. apply checkout_after_loop. now rewrite Hempty.
Qed.

Lemma checkout_empty_cart_witness :
  create_checkout_session (Some test_gateway) (request [])
    {| db := None; log := [] |} =
    (inr {| resp_url := "https://checkout.stripe.com/c/pay/cs_test_a1B2" |},
     {| db := None;
        log := [Session_create_ev (session_params (request []) [])] |}).
Proof.
  exact (checkout_empty_cart test_gateway (request [])
           {| db := None; log := [] |} eq_refl).
Defined.

(** ** Checkout: prices that do not convert *)

Lemma unit_amount_of_error prod e :
  unit_amount_of prod = inl e ->
  (exists msg, e = OverflowError msg) \/ (exists msg, e = ValueError msg).
Proof.
  unfold unit_amount_of, py_float, py_int.
  destruct (a_price (fields prod)) as [p|].
  - destruct (PyFloat.to_int (PyFloat.mul p (PyFloat.lit 100)))
      as [[|]|n]; intros [= <-]; eauto.
  - cbn. discriminate.
Qed.

Lemma build_line_items_price_error coll item rest acc w k prod e :
  db w = Some coll ->
  ObjectId (product_id item) = inr k ->
  find (has_id k) coll = Some prod ->
  unit_amount_of prod = inl e ->
  build_line_items (item :: rest) acc w =
  (inl e, add_log w [find_one_ev (Some k)]).
Proof.
  intros Hdb Hk Hfind He. cbn [build_line_items].
  unfold bind at 1. unfold db_product at 1. rewrite Hdb.
  unfold bind at 1. unfold lift at 1. rewrite Hk.
  unfold bind at 1. rewrite (find_one_run w coll (Some k) Hdb).
  cbn [matches]. rewrite Hfind.
  unfold bind at 1. unfold lift at 1. now rewrite He.
Qed.

(** When an item resolves to a product whose price times 100 is not a
    finite number (an infinite or NaN price, or an overflow), the
    conversion raises [OverflowError] or [ValueError], no handler
    catches it, and the request ends there as a 500: the gateway is not
    called and the store is not written. *)
Theorem checkout_price_not_convertible
    sdk req w coll pre item post rs k prod e :
  db w = Some coll ->
  items req = pre ++ item :: post ->
  Forall2 (built coll) pre rs ->
  ObjectId (product_id item) = inr k ->
  find (has_id k) coll = Some prod ->
  unit_amount_of prod = inl e ->
  create_checkout_session (Some sdk) req w =
    (inl e, add_log w (lookups rs ++ [find_one_ev (Some k)])) /\
  http_status e = 500 /\
  gateway_calls (add_log w (lookups rs ++ [find_one_ev (Some k)]))
    = gateway_calls w.
Proof.
  intros Hdb Hitems Hpre Hk Hfind He.
  split; [|split].
  - unfold create_checkout_session, bind. rewrite Hitems.
    rewrite (build_line_items_prefix coll pre rs _ _ w Hdb Hpre).
    rewrite (build_line_items_price_error coll item post _ _ k prod e);
      auto.
    now rewrite add_log_app.
  - destruct (unit_amount_of_error prod e He) as [[msg ->]|[msg ->]];
      reflexivity.
  - rewrite gateway_calls_add_log, filter_app, lookups_no_gateway.
    cbn. now rewrite app_nil_r.
Qed.

Lemma checkout_price_not_convertible_witness :
  PyFloat.ge0 (S754_infinity false) = true /\
  create_checkout_session (Some test_gateway)
    (request [(tea_id, 1); (gold_id, 1)]) w1 =
    (inl (OverflowError "cannot convert float infinity to integer"),
     add_log w1 [find_one_ev (Some (key_of tea_id));
                 find_one_ev (Some (key_of gold_id))]).
Proof.
  split; [reflexivity|].
  apply (checkout_price_not_convertible test_gateway
           (request [(tea_id, 1); (gold_id, 1)]) w1
           [tea_doc; gold_doc; plain_doc]
           (cart_of [(tea_id, 1)])
           {| product_id := gold_id; quantity := 1 |} []
           [(key_of tea_id,
             line_item tea_doc {| product_id := tea_id; quantity := 1 |} 999)]
           (key_of gold_id) gold_doc).
  - reflexivity.
  - reflexivity.
  - constructor; [|constructor].
    apply (built_intro _ _ (key_of tea_id) tea_doc 999); reflexivity.
  - reflexivity.
  - reflexivity.
  - reflexivity.
Defined.

(** ** Pricing: truncation against rounding *)

Lemma lit_100 : PyFloat.lit 100 = S754_finite false 7036874417766400 (-46).
Proof. vm_compute. reflexivity. Qed.

Lemma binary_round_aux_sign mx ex lx :
  match binary_round_aux PyFloat.prec PyFloat.emax false mx ex lx with
  | S754_zero s | S754_infinity s | S754_finite s _ _ => s = false
  | S754_nan => True
  end.
Proof.
  unfold binary_round_aux.
  destruct (shr_fexp PyFloat.prec PyFloat.emax mx ex lx) as [mrs' e'].
  destruct (shr_fexp PyFloat.prec PyFloat.emax
              (round_nearest_even (shr_m mrs') (loc_of_shr_record mrs'))
              e' loc_Exact) as [mrs'' e''].
  destruct (shr_m mrs''); [reflexivity | | exact I].
  now destruct (e'' <=? PyFloat.emax - PyFloat.prec).
Qed.

(** [int] and [round] of the same float: same sign, and [round] is
    [int] or one further from zero. *)
Lemma round_near_to_int x n :
  PyFloat.to_int x = inr n ->
  exists r,
    PyFloat.round x = inr r /\
    Z.abs n <= Z.abs r <= Z.abs n + 1 /\
    match x with
    | S754_finite true _ _ => r <= n <= 0
    | _ => 0 <= n <= r
    end.
Proof.
  destruct x as [s|s| |s m e]; unfold PyFloat.to_int, PyFloat.round;
    try discriminate.
  - intros [= <-]. exists 0. repeat split; lia.
  - assert (Hd : forall p, 0 < 2 ^ Z.pos p)
      by (intros p; apply Z.pow_pos_nonneg; lia).
    destruct e as [|p|p].
    + intros [= <-]. eexists. split; [reflexivity|]. destruct s; lia.
    + assert (Ha : 0 < Z.pos m * 2 ^ Z.pos p) by (specialize (Hd p); nia).
      revert Ha. generalize (Z.pos m * 2 ^ Z.pos p). intros a Ha [= <-].
      eexists. split; [reflexivity|]. destruct s; lia.
    + assert (Hq : 0 <= Z.pos m / 2 ^ Z.pos p)
        by (apply Z.div_pos; [lia | apply Hd]).
      revert Hq. cbv zeta.
      generalize (Z.pos m / 2 ^ Z.pos p). intros q.
      generalize (Z.pos m mod 2 ^ Z.pos p). intros rem.
      generalize (2 ^ Z.pos p). intros d Hq [= <-].
      destruct (Z.compare (2 * rem) d); [destruct (Z.even q)| |];
        eexists; (split; [reflexivity|]); destruct s; lia.
Qed.

(** The amount charged for a product is [round(price * 100)] or one
    minor unit closer to zero, never further from it; for a price that
    meets the schema's [price >= 0] it is never negative and never above
    the rounded amount. *)
Theorem unit_amount_at_most_one_below_round prod p n :
  a_price (fields prod) = Some p ->
  unit_amount_of prod = inr n ->
  exists r,
    PyFloat.round (PyFloat.mul p (PyFloat.lit 100)) = inr r /\
    Z.abs n <= Z.abs r <= Z.abs n + 1 /\
    (PyFloat.ge0 p = true -> 0 <= n /\ n <= r <= n + 1).
Proof.
  intros Hp Hn. unfold unit_amount_of, py_float, py_int in Hn.
  rewrite Hp in Hn.
  destruct (PyFloat.to_int (PyFloat.mul p (PyFloat.lit 100)))
    as [[|]|n'] eqn:Hint; try discriminate.
  injection Hn as ->.
  destruct (round_near_to_int _ n Hint) as (r & Hr & Habs & Hsign).
  exists r. split; [exact Hr|]. split; [exact Habs|].
  intros Hge.
  enough (0 <= n <= r) by lia.
  revert Hint Hsign. rewrite lit_100. unfold PyFloat.mul.
  destruct p as [s|s| |s m e]; cbn [SFmul];
    try (intros _ H; exact H); try discriminate Hge.
  - destruct s; cbn [xorb]; [discriminate Hge|].
    pose proof (binary_round_aux_sign
                  (Z.pos (m * 7036874417766400)) (e + -46) loc_Exact) as Hs.
    destruct (binary_round_aux PyFloat.prec PyFloat.emax false
                (Z.pos (m * 7036874417766400)) (e + -46) loc_Exact)
      as [s'|s'| |s' m' e']; try (intros _ H; exact H).
    subst s'. intros _ H; exact H.
Qed.

Lemma unit_amount_at_most_one_below_round_witness :
  exists r,
    PyFloat.round (PyFloat.mul (PyFloat.decimal 1999 2) (PyFloat.lit 100))
      = inr r /\
    Z.abs 1998 <= Z.abs r <= Z.abs 1998 + 1 /\
    (PyFloat.ge0 (PyFloat.decimal 1999 2) = true ->
     0 <= 1998 /\ 1998 <= r <= 1998 + 1).
Proof.
  exact (unit_amount_at_most_one_below_round chai_doc
           (PyFloat.decimal 1999 2) 1998 eq_refl eq_refl).
Defined.

(** ** Checkout reads the catalog *)

(** After an update, a checkout of that product is priced, named and
    illustrated from the payload just stored: the line item carries the
    payload's title, its first image if any, and its price converted to
    minor units, with the quantity of the cart. *)
Theorem checkout_after_update sdk s payload quantity req w coll k d amount :
  db w = Some coll ->
  ObjectId s = inr k ->
  find (has_id k) coll = Some d ->
  valid_ProductIn payload = true ->
  items req = [{| product_id := s; quantity := quantity |}] ->
  py_int (PyFloat.mul (price payload) (PyFloat.lit 100)) = inr amount ->
  fst (create_checkout_session (Some sdk) req
         (snd (update_product s payload w)))
    = gateway_outcome sdk
        (session_params req
           [{| price_data :=
                 {| currency := "usd";
                    product_data :=
                      {| name := title payload;
                         pd_images := firstn 1 (images payload) |};
                    unit_amount := amount |};
               li_quantity := quantity |}]).
Proof.
  intros Hdb Hk Hfind Hvalid Hitems Hamount.
  destruct (update_first_found k (model_dump payload) coll d Hfind)
    as [Hn Hf].
  destruct (find_has_id k coll d Hfind) as [Hid _].
  change (set_attrs (model_dump payload) (fields d))
    with (model_dump payload) in Hf.
  rewrite Hid in Hf.
  rewrite (update_product_run s payload w coll k Hdb Hk), Hn.
  cbn [Z.eqb snd].
  set (item := {| product_id := s; quantity := quantity |}) in *.
  set (doc := {| _id := k; fields := model_dump payload |}) in *.
  assert (HF : Forall2
                 (built (fst (update_first k (model_dump payload) coll)))
                 (items req) [(k, line_item doc item amount)]).
  { rewrite Hitems. constructor; [|constructor].
    apply (built_intro _ item k doc amount); [exact Hk | exact Hf |].
    unfold unit_amount_of. exact Hamount. }
  erewrite checkout_built; [ | reflexivity | exact HF ].
  reflexivity.
Qed.

Lemma checkout_after_update_witness :
  fst (create_checkout_session (Some test_gateway)
         (request [(bare_id, 4)])
         (snd (update_product bare_id chai w0)))
    = gateway_outcome test_gateway
        (session_params (request [(bare_id, 4)])
           [{| price_data :=
                 {| currency := "usd";
                    product_data :=
                      {| name := "Masala Chai"; pd_images := [] |};
                    unit_amount := 1998 |};
               li_quantity := 4 |}]).
Proof.
  exact (checkout_after_update test_gateway bare_id chai 4
           (request [(bare_id, 4)]) w0 sample_store (key_of bare_id)
           bare_doc 1998 eq_refl eq_refl eq_refl eq_refl eq_refl eq_refl).
Defined.

(** ** Catalog: create is not undone *)

Lemma find_fresh_id coll : find (has_id (fresh_id coll)) coll = None.
Proof.
  destruct (find (has_id (fresh_id coll)) coll) as [d|] eqn:Hf;
    [|reflexivity].
  apply find_has_id in Hf as [Hid Hin].
  pose proof (fresh_id_above coll (_id d) (in_map _id _ _ Hin)). lia.
Qed.

Lemma find_app_absent {A} (f : A -> bool) l l' :
  find f l = None -> find f (l ++ l') = find f l'.
Proof.
  induction l as [|x l IH]; cbn [find app]; [reflexivity|].
  destruct (f x); [discriminate | exact IH].
Qed.

(** Without a store [create] answers 500 "Database not configured" and
    does nothing.  With one, it adds the payload under a key no stored
    document has and then fails (see the class lookup): the record is
    not removed again, so the failed request has created a product that
    [get] reads back as the payload. *)
Theorem create_product_leaves_record payload w :
  (db w = None ->
   create_product payload w =
     (inl (HTTPException 500 "Database not configured"), w)) /\
  (forall coll,
     db w = Some coll ->
     (exists msg, fst (create_product payload w) = inl (AttributeError msg)) /\
     db (snd (create_product payload w))
       = Some (coll ++ [{| _id := fresh_id coll;
                           fields := model_dump payload |}]) /\
     find (has_id (fresh_id coll)) coll = None /\
     (valid_ProductIn payload = true ->
      (fresh_id coll < 16 ^ 24)%N ->
      fst (get_product (str_ObjectId (fresh_id coll))
             (snd (create_product payload w)))
        = inr {| base := payload; id := str_ObjectId (fresh_id coll) |})).
Proof.
  split; [apply create_product_unconfigured|].
  intros coll Hdb. rewrite (create_product_raises payload w coll Hdb).
  cbn [fst snd db].
  split; [eauto|]. split; [reflexivity|].
  split; [apply find_fresh_id|].
  intros Hvalid Hbound.
  rewrite (get_product_on _ _ _ _ (ObjectId_str_ObjectId _ Hbound)).
  rewrite (find_app_absent _ _ _ (find_fresh_id coll)).
  cbn [find]. unfold has_id at 1. cbn [_id]. rewrite N.eqb_refl.
  rewrite (proj2 (N.ltb_lt _ _) Hbound). cbn [andb fst].
  unfold as_product. cbn [serialize_doc _id fields].
  now apply Product_of_model_dump.
Qed.

(** ** Catalog: listing *)

Lemma as_product_status d e : as_product d = inl e -> http_status e = 500.
Proof.
  unfold as_product, serialize_doc, Product_of.
  destruct (a_title (fields d)); [|now intros [= <-]].
  destruct (a_price (fields d)) as [pr|]; [|now intros [= <-]].
  destruct (negb (PyFloat.ge0 pr)); [now intros [= <-]|].
  destruct (match get (a_compare_at_price (fields d)) None with
            | Some x => negb (PyFloat.ge0 x) | None => false end);
    [now intros [= <-] | discriminate].
Qed.

Lemma Products_of_all coll :
  Forall (fun d => exists p, as_product d = inr p) coll ->
  exists ps, Products_of coll = inr ps /\
             Forall2 (fun d p => as_product d = inr p) coll ps.
Proof.
  induction 1 as [|d coll [p Hp] _ (ps & Hps & HF)].
  - exists []. split; [reflexivity | constructor].
  - exists (p :: ps). split; [|now constructor].
    cbn [Products_of]. fold (as_product d). now rewrite Hp, Hps.
Qed.

Lemma Products_of_invalid coll d e :
  In d coll -> as_product d = inl e ->
  exists e', Products_of coll = inl e' /\ http_status e' = 500.
Proof.
  intros Hin He. induction coll as [|x coll IH]; [contradiction|].
  cbn [Products_of]. fold (as_product x).
  destruct (as_product x) as [ex|px] eqn:Hx.
  - exists ex. split; [reflexivity | exact (as_product_status x ex Hx)].
  - destruct Hin as [<-|Hin]; [congruence|].
    destruct (IH Hin) as (e' & -> & Hs). now exists e'.
Qed.

Lemma find_unique_key coll d :
  NoDup (map _id coll) -> In d coll -> (_id d < 16 ^ 24)%N ->
  find (has_id (_id d)) coll = Some d.
Proof.
  intros Hnd Hin Hb. induction coll as [|x coll IH]; [contradiction|].
  cbn [map find] in *.
  inversion Hnd as [|? ? Hnin Hnd']; subst.
  destruct (has_id (_id d) x) eqn:Hx.
  - destruct Hin as [->|Hin]; [reflexivity|].
    apply has_id_true in Hx. exfalso. apply Hnin. rewrite Hx.
    now apply in_map.
  - destruct Hin as [->|Hin]; [|now apply IH].
    unfold has_id in Hx.
    now rewrite N.eqb_refl, (proj2 (N.ltb_lt _ _) Hb) in Hx.
Qed.

Lemma Forall2_In_right {A B} (R : A -> B -> Prop) l l' b :
  Forall2 R l l' -> In b l' -> exists a, In a l /\ R a b.
Proof.
  induction 1 as [|x y l l' Hxy _ IH]; [contradiction|].
  intros [<-|Hin].
  - exists x. split; [now left | exact Hxy].
  - destruct (IH Hin) as (a & Ha & HR). exists a. split; [now right | exact HR].
Qed.

(** When every stored document is readable as a product, the listing
    answers with one product per document, each under its printed key;
    with unique 12-byte keys, every listed product is the one [get]
    answers with for the listed identifier. *)
Theorem list_products_lists_every_document w coll :
  db w = Some coll ->
  Forall (fun d => exists p, as_product d = inr p) coll ->
  exists ps,
    list_products w = (inr ps, add_log w [command_ev "find"]) /\
    Forall2 (fun d p => as_product d = inr p /\
                        id p = str_ObjectId (_id d)) coll ps /\
    (NoDup (map _id coll) ->
     Forall (fun d => (_id d < 16 ^ 24)%N) coll ->
     Forall (fun p => fst (get_product (id p) w) = inr p) ps).
Proof.
  intros Hdb Hall.
  destruct (Products_of_all coll Hall) as (ps & Hps & HF).
  exists ps. split; [|split].
  - unfold list_products, bind, get_documents, lift, add_log.
    now rewrite Hdb, Hps.
  - eapply Forall2_impl; [|exact HF].
    intros d p Hp. split; [exact Hp | now apply as_product_id].
  - intros Hnd Hbound. apply Forall_forall. intros p Hin.
    destruct (Forall2_In_right _ _ _ p HF Hin) as (d & Hd & Hp).
    pose proof (proj1 (Forall_forall _ _) Hbound d Hd) as Hb.
    rewrite (as_product_id d p Hp).
    rewrite (get_product_run _ w coll (_id d) Hdb
               (ObjectId_str_ObjectId _ Hb)).
    now rewrite (find_unique_key coll d Hnd Hd Hb).
Qed.

Lemma list_products_lists_every_document_witness :
  exists ps,
    list_products w1 = (inr ps, add_log w1 [command_ev "find"]) /\
    Forall2 (fun d p => as_product d = inr p /\
                        id p = str_ObjectId (_id d))
      [tea_doc; gold_doc; plain_doc] ps /\
    Forall (fun p => fst (get_product (id p) w1) = inr p) ps.
Proof.
  destruct (list_products_lists_every_document w1
              [tea_doc; gold_doc; plain_doc] eq_refl)
    as (ps & Hrun & HF & Hget).
  - repeat constructor; eexists; vm_compute; reflexivity.
  - exists ps. split; [exact Hrun|]. split; [exact HF|].
    apply Hget.
    + repeat constructor; vm_compute; intuition discriminate.
    + repeat constructor.
Defined.

(** One stored document that is not readable as a product (no title,
    no price, a negative price) makes the whole listing fail with a
    500: no product is listed at all. *)
Theorem list_products_fails_on_invalid_document w coll d e :
  db w = Some coll ->
  In d coll ->
  as_product d = inl e ->
  exists e',
    list_products w = (inl e', add_log w [command_ev "find"]) /\
    http_status e' = 500.
Proof.
  intros Hdb Hin He.
  destruct (Products_of_invalid coll d e Hin He) as (e' & Hps & Hs).
  exists e'. split; [|exact Hs].
  unfold list_products, bind, get_documents, lift, add_log.
  now rewrite Hdb, Hps.
Qed.

Lemma list_products_fails_on_invalid_document_witness :
  exists e',
    list_products w0 = (inl e', add_log w0 [command_ev "find"]) /\
    http_status e' = 500.
Proof.
  exact (list_products_fails_on_invalid_document w0 sample_store bare_doc
           (ValidationError "title") eq_refl
           (or_intror (or_intror (or_introl eq_refl))) eq_refl).
Defined.

(** ** Catalog: update twice *)

Lemma update_first_again k payload coll :
  update_first k (model_dump payload)
    (fst (update_first k (model_dump payload) coll))
  = update_first k (model_dump payload) coll.
Proof.
  induction coll as [|x coll IH]; cbn [update_first fst]; [reflexivity|].
  destruct (has_id k x) eqn:Hx.
  - cbn [fst update_first].
    change (has_id k {| _id := _id x;
                        fields := set_attrs (model_dump payload) (fields x) |})
      with (has_id k x).
    now rewrite Hx.
  - destruct (update_first k (model_dump payload) coll) as [rest n] eqn:Hu.
    cbn [fst update_first] in *. now rewrite Hx, IH.
Qed.

(** Updating is idempotent: sending the same update again answers with
    the same product and leaves the stored documents as the first update
    left them. *)
Theorem update_product_idempotent s payload w coll k d :
  db w = Some coll ->
  ObjectId s = inr k ->
  find (has_id k) coll = Some d ->
  fst (update_product s payload (snd (update_product s payload w)))
    = fst (update_product s payload w) /\
  db (snd (update_product s payload (snd (update_product s payload w))))
    = db (snd (update_product s payload w)).
Proof.
  intros Hdb Hk Hfind.
  rewrite (update_product_run s payload w coll k Hdb Hk). cbn [fst snd].
  erewrite update_product_run; [ | reflexivity | exact Hk ].
  cbn [fst snd db]. now rewrite update_first_again.
Qed.

Lemma update_product_idempotent_witness :
  fst (update_product chai_id tea (snd (update_product chai_id tea w0)))
    = inr {| base := tea; id := chai_id |} /\
  db (snd (update_product chai_id tea (snd (update_product chai_id tea w0))))
    = db (snd (update_product chai_id tea w0)).
Proof.
  destruct (update_product_idempotent chai_id tea w0 sample_store
              (key_of chai_id) chai_doc eq_refl eq_refl eq_refl)
    as [Hfst Hdb].
  split; [rewrite Hfst; reflexivity | exact Hdb].
Defined.

(** ** Without a store *)

(** Only [create] checks that a store is configured.  Without one it
    answers 500 "Database not configured"; get, update, delete and a
    checkout of a non-empty cart fail on subscripting [None], before the
    identifier is even decoded, with a [TypeError] that reaches the
    caller as a bare 500.  Nothing is called, the gateway included. *)
Theorem handlers_without_store w :
  db w = None ->
  (forall payload,
     create_product payload w =
       (inl (HTTPException 500 "Database not configured"), w)) /\
  (forall s,
     get_product s w =
       (inl (TypeError "'NoneType' object is not subscriptable"), w)) /\
  (forall s payload,
     update_product s payload w =
       (inl (TypeError "'NoneType' object is not subscriptable"), w)) /\
  (forall s,
     delete_product s w =
       (inl (TypeError "'NoneType' object is not subscriptable"), w)) /\
  (forall sdk req item rest,
     items req = item :: rest ->
     create_checkout_session (Some sdk) req w =
       (inl (TypeError "'NoneType' object is not subscriptable"), w)) /\
  http_status (TypeError "'NoneType' object is not subscriptable") = 500.
Proof.
  intros Hdb.
  split; [intros; now apply create_product_unconfigured|].
  split; [intros; unfold get_product, bind, db_product; now rewrite Hdb|].
  split; [intros; unfold update_product; unfold bind at 1;
          unfold db_product at 1; now rewrite Hdb|].
  split; [intros; unfold delete_product, bind, db_product; now rewrite Hdb|].
  split; [|reflexivity].
  intros sdk req item rest Hitems.
  unfold create_checkout_session. rewrite Hitems. cbn [build_line_items].
  unfold bind at 1. unfold bind at 1. unfold db_product at 1.
  now rewrite Hdb.
Qed.

Lemma handlers_without_store_witness :
  get_product malformed_id {| db := None; log := [] |} =
    (inl (TypeError "'NoneType' object is not subscriptable"),
     {| db := None; log := [] |}) /\
  create_checkout_session (Some test_gateway) (request [(tea_id, 1)])
    {| db := None; log := [] |} =
    (inl (TypeError "'NoneType' object is not subscriptable"),
     {| db := None; log := [] |}).
Proof.
  destruct (handlers_without_store {| db := None; log := [] |} eq_refl)
    as (_ & Hget & _ & _ & Hco & _).
  split; [apply Hget|].
  apply (Hco test_gateway (request [(tea_id, 1)])
           {| product_id := tea_id; quantity := 1 |} []).
  reflexivity.
Defined.

(** ** Malformed identifiers *)


